(** * livestreamer_cli/output.py: output sinks and the multicast packetizer

  A shallow embedding of [livestreamer_cli/output.py]: the [Output] base
  class with its [open]/[close]/[write] life cycle, the three concrete
  sinks [FileOutput], [PlayerOutput] and [MulticastOutput], and the
  generator [MulticastOutput.iterdata] that cuts a byte stream into
  MPEG-TS packets. *)

From Stdlib Require Import ZArith List String Ascii Bool Lia.
From Stdlib Require Import Strings.Byte.
Import ListNotations.
Open Scope Z_scope.

(** ** Python primitives used by the module *)

Module Py.

(** A [bytes] object. *)
Definition bytes := list byte.

(** [len(b)]. *)
Definition len {A} (l : list A) : Z := Z.of_nat (List.length l).

(** How a slice bound is normalised against a sequence of length [n]:
    a negative bound counts from the end, and both ends saturate. *)
Definition clamp (n i : Z) : Z :=
  if i <? 0 then Z.max (i + n) 0 else Z.min i n.

(** [data[start:stop]] (step 1). *)
Definition slice {A} (data : list A) (start stop : Z) : list A :=
  let n := len data in
  let a := clamp n start in
  let b := clamp n stop in
  firstn (Z.to_nat (b - a)) (skipn (Z.to_nat a) data).

(** [data[:stop]]: an omitted start is the beginning of the sequence. *)
Definition slice_to {A} (data : list A) (stop : Z) : list A :=
  slice data 0 stop.

(** [n] successive values [a, a + step, ...]. *)
Fixpoint range_from (n : nat) (a step : Z) : list Z :=
  match n with
  | O => []
  | S n' => a :: range_from n' (a + step) step
  end.

(** [range(a, b, step)] for a positive [step] (the only use in the
    module): the values [a + k * step] below [b]. *)
Definition range (a b step : Z) : list Z :=
  range_from (Z.to_nat ((b - a + step - 1) / step)) a step.

End Py.

(** ** The packetizer: [MulticastOutput.iterdata] *)

Module Packetizer.
Import Py.

(** The default of the [size] argument: MPEG TS packets of 188 bytes. *)
Definition packetSize : Z := 188.

(** The [for i in range(...)] loop of [iterdata], run over the indices
    [idx]. [remainder] is [self.remainder] on entry; the result is the
    packets yielded and [self.remainder] when the loop is left. *)
Fixpoint iterdata_loop (data : bytes) (size : Z) (remainder : bytes)
         (idx : list Z) : list bytes * bytes :=
  match idx with
  | [] => ([], remainder)
  | i :: idx' =>
      let packet := slice data i (i + size) in
      if negb (len packet =? size) then
        ([], packet)                                  (* remainder = packet; break *)
      else
        let '(packets, remainder') := iterdata_loop data size remainder idx' in
        (packet :: packets, remainder')               (* yield packet *)
  end.

(** [iterdata(self, data, size)] consumed to the end, as [_write] does:
    the packets yielded, in order, and the value of [self.remainder]
    afterwards. *)
Definition iterdata (remainder data : bytes) (size : Z) : list bytes * bytes :=
  let offset := len remainder in
  let '(head, remainder, offset) :=
    if negb (offset =? 0) then
      ([remainder ++ slice_to data (size - offset)], [], size - offset)
    else
      ([], remainder, offset) in
  let '(packets, remainder) :=
    iterdata_loop data size remainder (range offset (len data + 1) size) in
  (head ++ packets, remainder).

(** [feed]: one call of the packetizer with the default packet size. *)
Definition feed (remainder data : bytes) : list bytes * bytes :=
  iterdata remainder data packetSize.

(** Successive [feed] calls on one packetizer: all packets emitted, in
    order, and the remainder after the last call. *)
Fixpoint feed_all (remainder : bytes) (calls : list bytes) : list bytes * bytes :=
  match calls with
  | [] => ([], remainder)
  | data :: calls' =>
      let '(packets, remainder') := feed remainder data in
      let '(packets', remainder'') := feed_all remainder' calls' in
      (packets ++ packets', remainder'')
  end.

(** [self.remainder] while the generator is suspended at its [k]-th
    [yield] of a call entered with [remainder]: the first packet is
    yielded before the remainder is cleared, every later one after. *)
Definition remainder_at_yield (remainder : bytes) (k : nat) : bytes :=
  match k with
  | O => remainder
  | S _ => []
  end.

(** The reassembly property in the words of the specification: the
    longest prefix of the input whose length is a multiple of the packet
    size. *)
Definition aligned_prefix (input : bytes) : bytes :=
  firstn (Z.to_nat (packetSize * (len input / packetSize))) input.

(** A test pattern: [n] bytes counting up from [start] modulo 256. *)
Definition pattern_byte (k : nat) : byte :=
  match Byte.of_N (N.of_nat k mod 256) with
  | Some b => b
  | None => x00
  end.

Definition pattern (start n : nat) : bytes :=
  map pattern_byte (seq start n).

End Packetizer.

(** ** Exceptions, external effects and the environment *)

Module Effects.
Import Py.

(** The exceptions the module raises or lets through. *)
Inductive exn : Type :=
| IOError (msg : string)
| OSError (msg : string)
| ValueError (msg : string)
| AttributeError (attr : string)   (* lookup of an attribute the object lacks *)
| KeyboardInterrupt.               (* a BaseException that is no Exception *)

(** [isinstance(e, Exception)]. *)
Definition is_Exception (e : exn) : bool :=
  match e with
  | KeyboardInterrupt => false
  | _ => true
  end.

(** [raise IOError("Output is not opened")] in [Output.write]. *)
Definition NotOpenError : exn := IOError "Output is not opened".

(** [raise OSError("Process exited prematurely")] in [_open_subprocess]. *)
Definition PrematureExitError : exn := OSError "Process exited prematurely".

Inductive result (A : Type) : Type :=
| Ok (a : A)
| Raise (e : exn).
Arguments Ok {A} a.
Arguments Raise {A} e.

(** File objects: [compat.stdout] or a file opened by name. *)
Inductive file : Type :=
| stdout
| File (name : string).

Definition file_is (a b : file) : bool :=
  match a, b with
  | stdout, stdout => true
  | File x, File y => String.eqb x y
  | _, _ => false
  end.

(** The two streams handed to the child process. *)
Inductive stream : Type := child_stdout | child_stderr.

(** Calls that leave the module, in the order they are made. *)
Inductive event : Type :=
| FileOpen (name : string)                 (* open(filename, "wb") *)
| Setmode (f : file)                       (* msvcrt.setmode(fd.fileno(), os.O_BINARY) *)
| FdWrite (f : file) (data : bytes)        (* fd.write(data) *)
| FdClose (f : file)                       (* fd.close() *)
| Call (argv : list string)                (* subprocess.call(argv, ...) *)
| Popen (argv : list string) (pipe : bool) (* subprocess.Popen(argv, stdin=..., bufsize=0, ...) *)
| Sleep                                    (* sleep(0.5) *)
| Poll                                     (* player.poll() *)
| Kill                                     (* player.kill() *)
| Wait                                     (* player.wait() *)
| StreamClose (which : stream)             (* self.stdout.close(), self.stderr.close() *)
| PipeOpen                                 (* namedpipe.open("wb") *)
| PipeWrite (data : bytes)                 (* namedpipe.write(data) *)
| PipeClose                                (* namedpipe.close() *)
| HttpOpen                                 (* http.open() *)
| HttpWrite (data : bytes)                 (* http.write(data) *)
| HttpClose                                (* http.close() *)
| StdinWrite (data : bytes)                (* player.stdin.write(data) *)
| StdinClose                               (* player.stdin.close() *)
| CreateSocket (host : string) (port : Z)  (* mcastsocket.create_socket((host, port), loop=True) *)
| JoinGroup (group iface : string)         (* mcastsocket.join_group(socket, group, iface=iface) *)
| LeaveGroup (group iface : string)        (* mcastsocket.leave_group(socket, group, iface=iface) *)
| Sendto (packet : bytes) (host : string) (port : Z) (* socket.sendto(packet, 0, address) *)
| SocketClose.                             (* socket.close() *)

(** What the module cannot decide by itself: the platform, the library
    functions it calls on strings, which external calls raise, and the
    exit status the child shows at the liveness poll. *)
Record World : Type := {
  is_win32 : bool;
  format_filename : string -> string -> result string; (* args.format(filename=...) *)
  shlex_split : string -> result (list string);        (* shlex.split *)
  raises : event -> option exn;                        (* the error of an external call, if any *)
  returncode : option Z                                (* player.returncode after poll() *)
}.

(** A computation on an object of type [S]: its result or the exception
    it raises, the object afterwards (mutations made before an exception
    stay), and the external calls made. *)
Definition M (S A : Type) : Type := S -> result A * S * list event.

Definition ret {S A} (a : A) : M S A := fun s => (Ok a, s, []).

Definition bind {S A B} (m : M S A) (k : A -> M S B) : M S B :=
  fun s =>
    match m s with
    | (Ok a, s', t) => let '(r, s'', t') := k a s' in (r, s'', t ++ t')
    | (Raise e, s', t) => (Raise e, s', t)
    end.

Definition raise {S A} (e : exn) : M S A := fun s => (Raise e, s, []).

Definition get {S} : M S S := fun s => (Ok s, s, []).

Definition put {S} (s : S) : M S unit := fun _ => (Ok tt, s, []).

(** An external call that the environment may make fail. *)
Definition extern {S} (w : World) (ev : event) : M S unit :=
  fun s =>
    (match raises w ev with Some e => Raise e | None => Ok tt end, s, [ev]).

(** An external call that does not fail: sleeping, polling the child,
    closing the parent's handles on [os.devnull]. *)
Definition effect {S} (ev : event) : M S unit := fun s => (Ok tt, s, [ev]).

(** A computation on values only: no attribute is assigned, no external
    call is made. *)
Definition lift {S A} (r : result A) : M S A := fun s => (r, s, []).

Definition and_then {A B} (r : result A) (k : A -> result B) : result B :=
  match r with
  | Ok a => k a
  | Raise e => Raise e
  end.

(** [try: body finally: fin]: [fin] always runs; an exception of [fin]
    replaces the outcome of [body]. *)
Definition try_finally {S A} (body : M S A) (fin : M S unit) : M S A :=
  fun s =>
    let '(r, s', t) := body s in
    match fin s' with
    | (Ok _, s'', t') => (r, s'', t ++ t')
    | (Raise e, s'', t') => (Raise e, s'', t ++ t')
    end.

(** [with ignored(Exception): body], and [try: body except Exception: pass]. *)
Definition ignored {S} (body : M S unit) : M S unit :=
  fun s =>
    match body s with
    | (Raise e, s', t) => if is_Exception e then (Ok tt, s', t) else (Raise e, s', t)
    | out => out
    end.

(** The outcome of making the external calls [evs] in order: the error
    of the first that raises. *)
Fixpoint outcome (w : World) (evs : list event) : result unit :=
  match evs with
  | [] => Ok tt
  | ev :: evs' =>
      match raises w ev with
      | Some e => Raise e
      | None => outcome w evs'
      end
  end.

(** Truth value of an optional string: [None] and [''] are false. *)
Definition truthy (o : option string) : bool :=
  match o with
  | Some s => negb (String.eqb s EmptyString)
  | None => false
  end.

Definition is_some {A} (o : option A) : bool :=
  match o with Some _ => true | None => false end.

End Effects.

Declare Scope py_scope.
Notation "x <- m ;; k" := (Effects.bind m (fun x => k))
(at level 61, m at next level, right associativity) : py_scope.
Notation "m ;; k" := (Effects.bind m (fun _ => k))
(at level 61, right associativity) : py_scope.
Open Scope py_scope.

(** ** The base class [Output] *)

Module Base.
Import Py Effects.

(** An instance of a subclass of [Output]: the attribute [opened], absent
    until it is first assigned, and the attributes of the subclass. No
    method of a subclass touches [opened]. *)
Record Output (S : Type) : Type := mkOutput {
  opened : option bool;
  self : S
}.
Arguments mkOutput {S} opened self.
Arguments opened {S} o.
Arguments self {S} o.

(** The methods [_open], [_close] and [_write] a subclass overrides. *)
Class Sink (S : Type) : Type := {
  _open : World -> M S unit;
  _close : World -> M S unit;
  _write : World -> bytes -> M S unit
}.

(** A fresh instance, before any [__init__] has run. *)
Definition new {S} (attrs : S) : Output S := mkOutput None attrs.

(** [Output.__init__]: [self.opened = False]. *)
Definition __init__ {S} (o : Output S) : Output S :=
  mkOutput (Some false) (self o).

(** Reading [self.opened]. *)
Definition get_opened {S} : M (Output S) bool :=
  fun o =>
    match opened o with
    | Some b => (Ok b, o, [])
    | None => (Raise (AttributeError "opened"), o, [])
    end.

(** [self.opened = b]. *)
Definition set_opened {S} (b : bool) : M (Output S) unit :=
  fun o => (Ok tt, mkOutput (Some b) (self o), []).

(** A method of the subclass run on the instance. *)
Definition on_self {S A} (m : M S A) : M (Output S) A :=
  fun o => let '(r, s, t) := m (self o) in (r, mkOutput (opened o) s, t).

Section Methods.
Context {S : Type} `{Sink S}.

Definition open (w : World) : M (Output S) unit :=
  on_self (_open w) ;;
  set_opened true.

Definition close (w : World) : M (Output S) unit :=
  b <- get_opened ;;
  (if b then on_self (_close w) else ret tt) ;;
  set_opened false.

Definition write (w : World) (data : bytes) : M (Output S) unit :=
  b <- get_opened ;;
  if negb b then raise NotOpenError
  else on_self (_write w data).
End Methods.

End Base.

(** ** [FileOutput] *)

Module FileOutput.
Import Py Effects Base.

Record t : Type := {
  filename : option string;
  fd : option file
}.

(** [FileOutput.__init__]: assigns [filename] and [fd]; it does not call
    [Output.__init__]. *)
Definition __init__ (filename : option string) (fd : option file) : Output t :=
  new {| filename := filename; fd := fd |}.

Definition _open (w : World) : M t unit :=
  s <- get ;;
  (match filename s with
   | Some name =>
       if truthy (filename s) then
         extern w (FileOpen name) ;;
         put {| filename := filename s; fd := Some (File name) |}
       else ret tt
   | None => ret tt
   end) ;;
  if is_win32 w then
    s <- get ;;
    match fd s with
    | Some f => extern w (Setmode f)
    | None => raise (AttributeError "fileno")
    end
  else ret tt.

Definition _close (w : World) : M t unit :=
  s <- get ;;
  match fd s with
  | Some f => if negb (file_is f stdout) then extern w (FdClose f) else ret tt
  | None => raise (AttributeError "close")
  end.

Definition _write (w : World) (data : bytes) : M t unit :=
  s <- get ;;
  match fd s with
  | Some f => extern w (FdWrite f data)
  | None => raise (AttributeError "write")
  end.

#[global] Instance sink : Sink t :=
  {| Base._open := _open; Base._close := _close; Base._write := _write |}.

End FileOutput.

(** ** [PlayerOutput] *)

Module PlayerOutput.
Import Py Effects Base.

Record NamedPipe : Type := { path : string }.
Record HTTPServer : Type := { url : string }.

(** The [stdin] argument of [Popen]. *)
Inductive stdin_t : Type := sys_stdin | PIPE.

(** The [stdout] and [stderr] arguments of [Popen] and [call]. *)
Inductive stream_t : Type := devnull | sys_stream.

(** A [Popen] object; [stdin] tells whether [player.stdin] is a pipe
    (it is [None] when the child inherits the parent's input). *)
Record Popen_t : Type := { stdin_pipe : bool }.

Record t : Type := {
  cmd : string;
  args : string;
  kill : bool;
  call : bool;
  quiet : bool;
  filename : option string;
  namedpipe : option NamedPipe;
  http : option HTTPServer;
  stdin : stdin_t;
  stdout : stream_t;
  stderr : stream_t;
  player : option Popen_t            (* absent until [_open_subprocess] assigns it *)
}.

Definition set_player (p : Popen_t) : M t unit :=
  fun s =>
    (Ok tt,
     {| cmd := cmd s; args := args s; kill := kill s; call := call s;
        quiet := quiet s; filename := filename s; namedpipe := namedpipe s;
        http := http s; stdin := stdin s; stdout := stdout s;
        stderr := stderr s; player := Some p |},
     []).

(** Reading [self.player]. *)
Definition get_player : M t Popen_t :=
  fun s =>
    match player s with
    | Some p => (Ok p, s, [])
    | None => (Raise (AttributeError "player"), s, [])
    end.

(** [PlayerOutput.__init__]; it does not call [Output.__init__]. The
    handles on [os.devnull] opened for a quiet player are values here. *)
Definition __init__ (cmd args : string) (filename : option string)
           (quiet kill call : bool) (http : option HTTPServer)
           (namedpipe : option NamedPipe) : Output t :=
  new {| cmd := cmd; args := args; kill := kill; call := call; quiet := quiet;
         filename := filename; namedpipe := namedpipe; http := http;
         stdin := if is_some namedpipe || truthy filename || is_some http
                  then sys_stdin else PIPE;
         stdout := if quiet then devnull else sys_stream;
         stderr := if quiet then devnull else sys_stream;
         player := None |}.

(** Whether [self.stdin] is [subprocess.PIPE]. *)
Definition stdin_is_pipe (s : t) : bool :=
  match stdin s with PIPE => true | sys_stdin => false end.

(** The property [running]: one poll, half a second after the spawn. *)
Definition running (w : World) : M t bool :=
  effect Sleep ;;
  _ <- get_player ;;
  effect Poll ;;
  _ <- get_player ;;
  ret (negb (is_some (returncode w))).

(** [s.replace("\\", "\\\\")]. *)
Fixpoint double_backslashes (s : string) : string :=
  match s with
  | EmptyString => EmptyString
  | String c s' =>
      if Ascii.eqb c "\"%char then String c (String c (double_backslashes s'))
      else String c (double_backslashes s')
  end.

(** [_create_arguments] reads attributes and calls library functions on
    strings only. *)
Definition _create_arguments (w : World) (s : t) : result (list string) :=
  let filename :=
    match namedpipe s with
    | Some np => path np
    | None =>
        match filename s with
        | Some name =>
            if truthy (filename s) then name
            else match http s with Some h => url h | None => "-"%string end
        | None => match http s with Some h => url h | None => "-"%string end
        end
    end in
  and_then (format_filename w (args s) filename) (fun args =>
  let cmd := cmd s in
  let '(cmd, args) :=
    if is_win32 w then (double_backslashes cmd, double_backslashes args)
    else (cmd, args) in
  and_then (shlex_split w cmd) (fun c =>
  and_then (shlex_split w args) (fun a =>
  Ok (c ++ a)%list))).

Definition _open_call (w : World) : M t unit :=
  s <- get ;;
  argv <- lift (_create_arguments w s) ;;
  extern w (Call argv).

Definition _open_subprocess (w : World) : M t unit :=
  s <- get ;;
  argv <- lift (_create_arguments w s) ;;
  let pipe := stdin_is_pipe s in
  extern w (Popen argv pipe) ;;
  set_player {| stdin_pipe := pipe |} ;;
  alive <- running w ;;
  if negb alive then raise PrematureExitError
  else
    match namedpipe s with
    | Some _ => extern w PipeOpen
    | None =>
        match http s with
        | Some _ => extern w HttpOpen
        | None => ret tt
        end
    end.

Definition _open (w : World) : M t unit :=
  try_finally
    (s <- get ;;
     if call s && truthy (filename s) then _open_call w
     else _open_subprocess w)
    (s <- get ;;
     if quiet s then
       effect (StreamClose child_stdout) ;;
       effect (StreamClose child_stderr)
     else ret tt).

(** [self.player.stdin.close()]. *)
Definition player_stdin_close (w : World) : M t unit :=
  p <- get_player ;;
  if stdin_pipe p then extern w StdinClose
  else raise (AttributeError "close").

(** [self.player.kill()]. *)
Definition player_kill (w : World) : M t unit :=
  _ <- get_player ;;
  extern w Kill.

(** [self.player.wait()]. *)
Definition player_wait (w : World) : M t unit :=
  _ <- get_player ;;
  extern w Wait.

(** First statement of [_close]: close the input of the player. *)
Definition close_input (w : World) : M t unit :=
  s <- get ;;
  match namedpipe s with
  | Some _ => extern w PipeClose
  | None =>
      match http s with
      | Some _ => extern w HttpClose
      | None =>
          if negb (truthy (filename s)) then player_stdin_close w
          else ret tt
      end
  end.

(** Second statement of [_close]: [if self.kill: with ignored(Exception): ...]. *)
Definition kill_step (w : World) : M t unit :=
  s <- get ;;
  if kill s then ignored (player_kill w) else ret tt.

Definition _close (w : World) : M t unit :=
  close_input w ;;
  kill_step w ;;
  player_wait w.

Definition _write (w : World) (data : bytes) : M t unit :=
  s <- get ;;
  match namedpipe s with
  | Some _ => extern w (PipeWrite data)
  | None =>
      match http s with
      | Some _ => extern w (HttpWrite data)
      | None =>
          p <- get_player ;;
          if stdin_pipe p then extern w (StdinWrite data)
          else raise (AttributeError "write")
      end
  end.

#[global] Instance sink : Sink t :=
  {| Base._open := _open; Base._close := _close; Base._write := _write |}.

(** The object once [_open_subprocess] has assigned [self.player]. *)
Definition spawned (s : t) : t :=
  {| cmd := cmd s; args := args s; kill := kill s; call := call s;
     quiet := quiet s; filename := filename s; namedpipe := namedpipe s;
     http := http s; stdin := stdin s; stdout := stdout s;
     stderr := stderr s;
     player := Some {| stdin_pipe := stdin_is_pipe s |} |}.

(** The external calls of [_open_subprocess] up to the liveness check. *)
Definition spawn_events (argv : list string) (s : t) : list event :=
  [Popen argv (stdin_is_pipe s); Sleep; Poll].

(** The call that opens the input channel, when there is one. *)
Definition channel_open_events (s : t) : list event :=
  match namedpipe s with
  | Some _ => [PipeOpen]
  | None => match http s with Some _ => [HttpOpen] | None => [] end
  end.

(** The calls of the [finally] clause of [_open]. *)
Definition finally_events (s : t) : list event :=
  if quiet s then [StreamClose child_stdout; StreamClose child_stderr] else [].

(** The call that closes the input of the player, when there is one. *)
Definition input_close_events (s : t) : list event :=
  match namedpipe s with
  | Some _ => [PipeClose]
  | None =>
      match http s with
      | Some _ => [HttpClose]
      | None => if negb (truthy (filename s)) then [StdinClose] else []
      end
  end.

(** The call that kills the player, when [kill] is set. *)
Definition kill_events (s : t) : list event :=
  if kill s then [Kill] else [].

(** The external calls of a complete [_close], in order. *)
Definition close_sequence (s : t) : list event :=
  (input_close_events s ++ kill_events s ++ [Wait])%list.

End PlayerOutput.

(** ** [MulticastOutput] *)

Module MulticastOutput.
Import Py Effects Base.

(** What [urlparse.urlparse(url)] gives for the sink's URL. *)
Record ParseResult : Type := {
  hostname : string;
  port : option Z;
  fragment : string
}.

Inductive socket_t : Type := mcast_socket.

Record t : Type := {
  url : ParseResult;
  address : string * Z;
  interface_ip : string;
  socket : option socket_t;          (* class attribute: [socket = None] *)
  remainder : bytes                  (* class attribute: [remainder = b''] *)
}.

(** [MulticastOutput.__init__]; it does not call [Output.__init__]. *)
Definition __init__ (url : ParseResult) : Output t :=
  new {| url := url;
         address := (hostname url,
                     match port url with
                     | Some p => if p =? 0 then 8000 else p
                     | None => 8000
                     end);
         interface_ip := fragment url;
         socket := None;
         remainder := [] |}.

Definition set_socket (so : option socket_t) : M t unit :=
  fun s =>
    (Ok tt,
     {| url := url s; address := address s; interface_ip := interface_ip s;
        socket := so; remainder := remainder s |}, []).

Definition set_remainder (r : bytes) : M t unit :=
  fun s =>
    (Ok tt,
     {| url := url s; address := address s; interface_ip := interface_ip s;
        socket := socket s; remainder := r |}, []).

Definition _open (w : World) : M t unit :=
  s <- get ;;
  let host :=
    if String.eqb (interface_ip s) EmptyString then fst (address s)
    else interface_ip s in
  extern w (CreateSocket host (snd (address s))) ;;
  set_socket (Some mcast_socket) ;;
  extern w (JoinGroup (fst (address s)) (interface_ip s)).

Definition _close (w : World) : M t unit :=
  s <- get ;;
  match socket s with
  | Some _ =>
      set_socket None ;;
      ignored (extern w (LeaveGroup (fst (address s)) (interface_ip s))) ;;
      extern w SocketClose
  | None => ret tt
  end.

(** [iterdata] bound to the instance, with the default [size]. *)
Definition iterdata (s : t) (data : bytes) : list bytes * bytes :=
  Packetizer.iterdata (remainder s) data Packetizer.packetSize.

(** The body of the [for packet in self.iterdata(data)] loop of [_write]
    for the packets from the [k]-th on; [entry] is [self.remainder] when
    the call began. *)
Fixpoint send_packets (w : World) (so : option socket_t) (addr : string * Z)
         (entry : bytes) (k : nat) (packets : list bytes) : M t unit :=
  match packets with
  | [] => ret tt
  | packet :: packets' =>
      set_remainder (Packetizer.remainder_at_yield entry k) ;;
      match so with
      | Some _ => extern w (Sendto packet (fst addr) (snd addr))
      | None => raise (AttributeError "sendto")
      end ;;
      send_packets w so addr entry (S k) packets'
  end.

Definition _write (w : World) (data : bytes) : M t unit :=
  s <- get ;;
  let '(packets, remainder') := iterdata s data in
  send_packets w (socket s) (address s) (remainder s) 0 packets ;;
  set_remainder remainder'.

#[global] Instance sink : Sink t :=
  {| Base._open := _open; Base._close := _close; Base._write := _write |}.

End MulticastOutput.

(** ** Sample environments and sinks *)

Module Samples.
Import Py Effects Base.

(** A POSIX environment in which the external calls selected by [fails]
    raise [e] and no other does; [args] is the template ["{filename}"]
    and the strings to split are single words. *)
Definition world (fails : event -> bool) (e : exn) (code : option Z) : World :=
  {| is_win32 := false;
     format_filename := fun _ filename => Ok filename;
     shlex_split := fun s => Ok [s];
     raises := fun ev => if fails ev then Some e else None;
     returncode := code |}.

(** Nothing fails and the player is alive at the liveness check. *)
Definition calm : World := world (fun _ => false) KeyboardInterrupt None.

Definition is_FdClose (ev : event) : bool :=
  match ev with FdClose _ => true | _ => false end.

(** Nothing fails and the player has exited with status 1 by the time of
    the liveness check. *)
Definition exited : World := world (fun _ => false) KeyboardInterrupt (Some 1).

Definition is_Kill (ev : event) : bool :=
  match ev with Kill => true | _ => false end.

(** Killing the player fails because it has exited already. *)
Definition kill_fails : World :=
  world is_Kill (OSError "No such process") None.

Definition is_Popen (ev : event) : bool :=
  match ev with Popen _ _ => true | _ => false end.

(** The command of the player is not found. *)
Definition popen_fails : World :=
  world is_Popen (OSError "No such file or directory") None.

(** [shlex.split] rejects every string, as it does one with an unbalanced
    quote. *)
Definition unbalanced : World :=
  {| is_win32 := false;
     format_filename := fun _ filename => Ok filename;
     shlex_split := fun _ => Raise (ValueError "No closing quotation");
     raises := fun _ => None;
     returncode := None |}.

(** Closing the file fails, for instance when the last flush does. *)
Definition fd_close_fails : World :=
  world is_FdClose (IOError "No space left on device") None.

(** The state of an object after a call. *)
Definition after {S A} (out : result A * S * list event) : S := snd (fst out).

Definition file_sink : Output FileOutput.t :=
  FileOutput.__init__ (Some "out.ts"%string) None.

Definition opened_file_sink : Output FileOutput.t :=
  after (open calm file_sink).

Definition closed_file_sink : Output FileOutput.t :=
  after (close calm opened_file_sink).

(** A player fed through its standard input. *)
Definition player_sink : Output PlayerOutput.t :=
  PlayerOutput.__init__ "vlc" "{filename}" None true true false None None.

Definition opened_player_sink : Output PlayerOutput.t :=
  after (open calm player_sink).

(** A player called on a file, in blocking call mode. *)
Definition call_sink : Output PlayerOutput.t :=
  PlayerOutput.__init__ "vlc" "{filename}" (Some "movie.ts"%string)
    true true true None None.

Definition multicast_sink : Output MulticastOutput.t :=
  MulticastOutput.__init__
    {| MulticastOutput.hostname := "239.0.0.1";
       MulticastOutput.port := None;
       MulticastOutput.fragment := "" |}.

Definition opened_multicast_sink : Output MulticastOutput.t :=
  after (open calm multicast_sink).

Definition is_Sendto (ev : event) : bool :=
  match ev with Sendto _ _ _ => true | _ => false end.

(** Every datagram is refused, as on a host without a route. *)
Definition sendto_fails : World :=
  world is_Sendto (OSError "Network is unreachable") None.

Definition is_JoinGroup (ev : event) : bool :=
  match ev with JoinGroup _ _ => true | _ => false end.

(** Joining the multicast group fails. *)
Definition join_fails : World :=
  world is_JoinGroup (OSError "No such device") None.

Definition is_LeaveGroup (ev : event) : bool :=
  match ev with LeaveGroup _ _ => true | _ => false end.

(** Leaving the multicast group fails. *)
Definition leave_fails : World :=
  world is_LeaveGroup (OSError "Cannot assign requested address") None.

End Samples.

(** * Properties of the packetizer *)

Section SliceFacts.
Import Py.
Context {A : Type}.

Lemma len_nonneg (l : list A) : 0 <= len l.
Proof. unfold len. lia. Qed.

Lemma len_app (l1 l2 : list A) : len (l1 ++ l2) = len l1 + len l2.
Proof. unfold len. rewrite length_app. lia. Qed.

Lemma clamp_bounds (n i : Z) : 0 <= n -> 0 <= clamp n i <= n.
Proof.
  intros Hn. unfold clamp.
  destruct (Z.ltb_spec i 0); lia.
Qed.

(** The length of a slice, as Python computes it. *)
Lemma slice_len (data : list A) (start stop : Z) :
  len (slice data start stop)
  = Z.max 0 (clamp (len data) stop - clamp (len data) start).
Proof.
  unfold slice.
  pose proof (clamp_bounds (len data) start (len_nonneg data)) as Ha.
  pose proof (clamp_bounds (len data) stop (len_nonneg data)) as Hb.
  set (a := clamp (len data) start) in *.
  set (b := clamp (len data) stop) in *.
  unfold len in *. rewrite length_firstn, length_skipn. lia.
Qed.

(** A window [data[i:i+size]] never holds more than [size] elements. *)
Lemma slice_window_le (data : list A) (i size : Z) :
  0 <= size -> len (slice data i (i + size)) <= size.
Proof.
  intros Hs. rewrite slice_len.
  pose proof (len_nonneg data) as Hn.
  unfold clamp.
  destruct (Z.ltb_spec (i + size) 0); destruct (Z.ltb_spec i 0); lia.
Qed.

(** Inside the sequence a slice is [firstn] of [skipn]. *)
Lemma slice_inside (data : list A) (start stop : Z) :
  0 <= start <= stop -> stop <= len data ->
  slice data start stop
  = firstn (Z.to_nat (stop - start)) (skipn (Z.to_nat start) data).
Proof.
  intros H1 H2. unfold slice, clamp.
  destruct (Z.ltb_spec start 0); destruct (Z.ltb_spec stop 0); try lia.
  rewrite !Z.min_l by lia. reflexivity.
Qed.

(** A slice that runs past the end is the rest of the sequence. *)
Lemma slice_tail (data : list A) (start stop : Z) :
  0 <= start -> len data <= stop ->
  slice data start stop = skipn (Z.to_nat start) data.
Proof.
  intros H1 H2. unfold slice, clamp.
  pose proof (len_nonneg data) as Hn.
  destruct (Z.ltb_spec start 0); destruct (Z.ltb_spec stop 0); try lia.
  rewrite (Z.min_r stop) by lia.
  destruct (Z.le_gt_cases start (len data)) as [Hle|Hgt].
  - rewrite Z.min_l by lia.
    apply firstn_all2. rewrite length_skipn. unfold len in *. lia.
  - rewrite Z.min_r by lia.
    rewrite !skipn_all2 by (unfold len in *; lia).
    apply firstn_nil.
Qed.

End SliceFacts.

Section PacketizerFacts.
Import Py Packetizer.

(** The loop leaves [self.remainder] as it found it, or assigns it a
    window that is not a full packet. *)
Lemma iterdata_loop_remainder (data : bytes) (size : Z) (r0 : bytes) (idx : list Z) :
  snd (iterdata_loop data size r0 idx) = r0 \/
  exists i, snd (iterdata_loop data size r0 idx) = slice data i (i + size)
            /\ len (slice data i (i + size)) <> size.
Proof.
  induction idx as [|i idx IH]; simpl.
  - now left.
  - destruct (Z.eqb_spec (len (slice data i (i + size))) size) as [He|Hne]; simpl.
    + destruct (iterdata_loop data size r0 idx) as [ps r]. simpl in *. exact IH.
    + right. exists i. split; [reflexivity|exact Hne].
Qed.

(** Every packet the loop yields is a full window. *)
Lemma iterdata_loop_packets (data : bytes) (size : Z) (r0 : bytes) (idx : list Z) :
  Forall (fun p => len p = size) (fst (iterdata_loop data size r0 idx)).
Proof.
  induction idx as [|i idx IH]; simpl.
  - constructor.
  - destruct (Z.eqb_spec (len (slice data i (i + size))) size) as [He|Hne]; simpl.
    + destruct (iterdata_loop data size r0 idx) as [ps r]. simpl in *.
      constructor; assumption.
    + constructor.
Qed.

(** The remainder after one [iterdata] call, whatever it was before. *)
Lemma iterdata_remainder_lt (remainder data : bytes) (size : Z) :
  0 < size -> len (snd (iterdata remainder data size)) < size.
Proof.
  intros Hs. unfold iterdata.
  destruct (Z.eqb_spec (len remainder) 0) as [H0|H0]; simpl.
  - destruct (iterdata_loop_remainder data size remainder
                (range (len remainder) (len data + 1) size)) as [H|[i [H Hi]]];
      destruct (iterdata_loop data size remainder
                  (range (len remainder) (len data + 1) size)) as [ps r];
      simpl in *; subst r.
    + lia.
    + pose proof (slice_window_le data i size). lia.
  - destruct (iterdata_loop_remainder data size []
                (range (size - len remainder) (len data + 1) size)) as [H|[i [H Hi]]];
      destruct (iterdata_loop data size []
                  (range (size - len remainder) (len data + 1) size)) as [ps r];
      simpl in *; subst r.
    + unfold len; simpl; lia.
    + pose proof (slice_window_le data i size). lia.
Qed.

Lemma feed_all_remainder_lt (calls : list bytes) (remainder : bytes) :
  len remainder < packetSize ->
  len (snd (feed_all remainder calls)) < packetSize.
Proof.
  revert remainder.
  induction calls as [|data calls IH]; intros remainder Hr; simpl.
  - exact Hr.
  - pose proof (iterdata_remainder_lt remainder data packetSize eq_refl) as H1.
    unfold feed. destruct (iterdata remainder data packetSize) as [ps r]. simpl in H1.
    specialize (IH r H1). destruct (feed_all r calls) as [ps' r']. exact IH.
Qed.

End PacketizerFacts.

Section RangeFacts.
Import Py.

Lemma range_empty (a b step : Z) :
  0 < step -> b <= a -> range a b step = [].
Proof.
  intros Hs Hba. unfold range.
  assert ((b - a + step - 1) / step <= 0) as Hq.
  { apply Z.lt_succ_r. apply Z.div_lt_upper_bound; lia. }
  replace (Z.to_nat ((b - a + step - 1) / step)) with O by lia.
  reflexivity.
Qed.

Lemma range_step (a b step : Z) :
  0 < step -> a < b -> range a b step = a :: range (a + step) b step.
Proof.
  intros Hs Hab. unfold range.
  replace (b - a + step - 1) with ((b - (a + step) + step - 1) + 1 * step) by lia.
  rewrite Z.div_add by lia.
  assert (0 <= (b - (a + step) + step - 1) / step) as Hq.
  { apply Z.div_pos; lia. }
  replace (Z.to_nat ((b - (a + step) + step - 1) / step + 1))
    with (S (Z.to_nat ((b - (a + step) + step - 1) / step))) by lia.
  reflexivity.
Qed.

End RangeFacts.

Section LoopFacts.
Import Py Packetizer.
Variables (data : bytes) (size : Z) (r0 : bytes).
Hypothesis size_pos : 0 < size.

(** A full window is yielded and the loop goes on. *)
Lemma iterdata_loop_full (off : Z) :
  0 <= off -> off + size <= len data ->
  iterdata_loop data size r0 (range off (len data + 1) size)
  = (firstn (Z.to_nat size) (skipn (Z.to_nat off) data)
       :: fst (iterdata_loop data size r0 (range (off + size) (len data + 1) size)),
     snd (iterdata_loop data size r0 (range (off + size) (len data + 1) size))).
Proof.
  intros H0 H1. rewrite range_step by lia. simpl.
  rewrite slice_len.
  rewrite (slice_inside data off (off + size)) by lia.
  replace (off + size - off) with size by lia.
  unfold clamp.
  destruct (Z.ltb_spec (off + size) 0); destruct (Z.ltb_spec off 0); try lia.
  replace (Z.max 0 (Z.min (off + size) (len data) - Z.min off (len data)) =? size)
    with true by (symmetry; apply Z.eqb_eq; lia).
  simpl.
  destruct (iterdata_loop data size r0 (range (off + size) (len data + 1) size)).
  reflexivity.
Qed.

(** The last window is short (possibly empty): it becomes the remainder. *)
Lemma iterdata_loop_last (off : Z) :
  0 <= off <= len data -> len data < off + size ->
  iterdata_loop data size r0 (range off (len data + 1) size)
  = ([], skipn (Z.to_nat off) data).
Proof.
  intros H0 H1. rewrite range_step by lia. simpl.
  rewrite slice_len.
  rewrite (slice_tail data off (off + size)) by lia.
  unfold clamp.
  destruct (Z.ltb_spec (off + size) 0); destruct (Z.ltb_spec off 0); try lia.
  replace (Z.max 0 (Z.min (off + size) (len data) - Z.min off (len data)) =? size)
    with false by (symmetry; apply Z.eqb_neq; lia).
  reflexivity.
Qed.

(** From a position inside [data] the loop yields full windows whose
    concatenation, followed by the remainder it leaves, is the rest of
    [data]. *)
Lemma iterdata_loop_spec (off : Z) :
  0 <= off <= len data ->
  List.concat (fst (iterdata_loop data size r0 (range off (len data + 1) size)))
    ++ snd (iterdata_loop data size r0 (range off (len data + 1) size))
  = skipn (Z.to_nat off) data.
Proof.
  remember (Z.to_nat (len data - off)) as m eqn:Hm.
  revert off Hm.
  induction m as [m IH] using lt_wf_ind. intros off Hm Hoff.
  destruct (Z.le_gt_cases (off + size) (len data)) as [Hfull|Hlast].
  - rewrite iterdata_loop_full by lia. simpl.
    rewrite <- app_assoc.
    rewrite (IH (Z.to_nat (len data - (off + size)))) by lia.
    replace (Z.to_nat (off + size)) with (Z.to_nat size + Z.to_nat off)%nat by lia.
    rewrite <- skipn_skipn. apply firstn_skipn.
  - rewrite iterdata_loop_last by lia. reflexivity.
Qed.

End LoopFacts.

Section IterdataFacts.
Import Py Packetizer.
Variable size : Z.
Hypothesis size_pos : 0 < size.

Lemma len_zero_nil {A} (l : list A) : len l = 0 -> l = [].
Proof. destruct l; [reflexivity|]. unfold len. simpl. lia. Qed.

(** Without a pending remainder, [iterdata] is its loop from offset 0. *)
Lemma iterdata_no_remainder (data : bytes) :
  iterdata [] data size
  = iterdata_loop data size [] (range 0 (len data + 1) size).
Proof.
  unfold iterdata. change (len (@nil byte)) with 0. simpl.
  destruct (iterdata_loop data size [] (range 0 (len data + 1) size)).
  reflexivity.
Qed.

(** With a pending remainder that [data] completes, the first packet is
    the remainder followed by the bytes it lacked, and the loop starts
    behind them. *)
Lemma iterdata_completes (remainder data : bytes) :
  0 < len remainder < size -> size <= len remainder + len data ->
  iterdata remainder data size
  = ((remainder ++ firstn (Z.to_nat (size - len remainder)) data)
       :: fst (iterdata_loop data size []
                 (range (size - len remainder) (len data + 1) size)),
     snd (iterdata_loop data size []
            (range (size - len remainder) (len data + 1) size))).
Proof.
  intros Hr Hd. unfold iterdata.
  destruct (Z.eqb_spec (len remainder) 0) as [H0|H0]; [lia|]. simpl.
  unfold slice_to. rewrite (slice_inside data 0 (size - len remainder)) by lia.
  rewrite Z.sub_0_r. simpl.
  destruct (iterdata_loop data size []
              (range (size - len remainder) (len data + 1) size)).
  reflexivity.
Qed.

(** With a pending remainder that [data] does not complete, the two are
    yielded together as one short packet and nothing is kept. *)
Lemma iterdata_short (remainder data : bytes) :
  0 < len remainder -> len remainder + len data < size ->
  iterdata remainder data size = ([remainder ++ data], []).
Proof.
  intros Hr Hd. unfold iterdata.
  destruct (Z.eqb_spec (len remainder) 0) as [H0|H0]; [lia|]. simpl.
  rewrite range_empty by lia. simpl.
  unfold slice_to. rewrite (slice_tail data 0 (size - len remainder)) by lia.
  reflexivity.
Qed.

(** No byte is lost or reordered by a call: what is yielded, followed by
    what is kept, is what was pending followed by [data]. *)
Lemma iterdata_conserves (remainder data : bytes) :
  len remainder < size ->
  List.concat (fst (iterdata remainder data size))
    ++ snd (iterdata remainder data size)
  = remainder ++ data.
Proof.
  intros Hr. pose proof (len_nonneg remainder) as Hn.
  destruct (Z.eq_dec (len remainder) 0) as [H0|H0].
  - apply len_zero_nil in H0. subst remainder.
    rewrite iterdata_no_remainder.
    rewrite iterdata_loop_spec by (pose proof (len_nonneg data); lia).
    reflexivity.
  - destruct (Z.le_gt_cases size (len remainder + len data)) as [Hc|Hs].
    + rewrite iterdata_completes by lia. simpl.
      rewrite <- !app_assoc. f_equal.
      rewrite iterdata_loop_spec by lia.
      apply firstn_skipn.
    + rewrite iterdata_short by lia. simpl.
      now rewrite !app_nil_r.
Qed.

(** Unless a pending remainder meets too little data, every packet of a
    call is full. *)
Lemma iterdata_full_packets (remainder data : bytes) :
  len remainder < size ->
  remainder = [] \/ size <= len remainder + len data ->
  Forall (fun p => len p = size) (fst (iterdata remainder data size)).
Proof.
  intros Hr Hc. pose proof (len_nonneg remainder) as Hn.
  destruct (Z.eq_dec (len remainder) 0) as [H0|H0].
  - apply len_zero_nil in H0. subst remainder.
    rewrite iterdata_no_remainder. apply iterdata_loop_packets.
  - assert (size <= len remainder + len data) as Hd.
    { destruct Hc as [->|Hc]; [exfalso; apply H0; reflexivity|exact Hc]. }
    rewrite iterdata_completes by lia. simpl.
    constructor; [|apply iterdata_loop_packets].
    rewrite len_app. unfold len. rewrite length_firstn. unfold len in *. lia.
Qed.

End IterdataFacts.

Section FeedFacts.
Import Py Packetizer.

(** Over any sequence of calls the bytes yielded, followed by the last
    remainder, are the bytes fed, in order. *)
Lemma feed_all_conserves (calls : list bytes) (remainder : bytes) :
  len remainder < packetSize ->
  List.concat (fst (feed_all remainder calls)) ++ snd (feed_all remainder calls)
  = remainder ++ List.concat calls.
Proof.
  revert remainder.
  induction calls as [|data calls IH]; intros remainder Hr; simpl.
  - now rewrite app_nil_r.
  - pose proof (iterdata_remainder_lt remainder data packetSize eq_refl) as H1.
    pose proof (iterdata_conserves packetSize eq_refl remainder data Hr) as H2.
    unfold feed. destruct (iterdata remainder data packetSize) as [ps r].
    simpl in H1, H2. specialize (IH r H1).
    destruct (feed_all r calls) as [ps' r']. simpl in *.
    rewrite concat_app, <- app_assoc, IH, !app_assoc, H2. reflexivity.
Qed.

(** C7: the remainder of the packetizer is shorter than a packet in every
    state between calls: a new [MulticastOutput] holds the empty
    remainder, one [feed] call leaves a remainder of length in [0, 188)
    whatever was pending and whatever is fed, and so does every finite
    sequence of calls from the empty remainder. *)
Theorem C7_remainder_below_packet_size :
  (forall url,
      MulticastOutput.remainder (Base.self (MulticastOutput.__init__ url)) = [])
  /\ (forall remainder data,
         0 <= len (snd (feed remainder data)) < packetSize)
  /\ (forall calls,
         0 <= len (snd (feed_all [] calls)) < packetSize).
Proof.
  split; [reflexivity|split].
  - intros remainder data. split; [apply len_nonneg|].
    apply iterdata_remainder_lt. reflexivity.
  - intros calls. split; [apply len_nonneg|].
    apply feed_all_remainder_lt. reflexivity.
Qed.

(** C1, at a pending remainder of 10 bytes fed 5 more: the call yields
    one packet of 15 bytes, not 188, and keeps nothing, where the claim
    has it yield nothing and keep the 15 bytes. *)
Theorem C1_short_packet_emitted :
  feed (pattern 0 10) (pattern 10 5) = ([pattern 0 15], [])
  /\ len (pattern 0 15) = 15
  /\ len (pattern 0 10) + len (pattern 10 5) < packetSize.
Proof. repeat split. Qed.

(** C2, at the calls [feed(10 bytes)] then [feed(5 bytes)] from the empty
    remainder: the 15 bytes fed are all emitted and the remainder is
    empty, where the longest prefix of the input whose length is a
    multiple of 188 is empty and the 15 bytes should be held back. *)
Theorem C2_reassembly_breaks_on_short_feed :
  feed_all [] [pattern 0 10; pattern 10 5] = ([pattern 0 15], [])
  /\ List.concat [pattern 0 10; pattern 10 5] = pattern 0 15
  /\ aligned_prefix (List.concat [pattern 0 10; pattern 10 5]) = []
  /\ List.concat (fst (feed_all [] [pattern 0 10; pattern 10 5]))
     <> aligned_prefix (List.concat [pattern 0 10; pattern 10 5]).
Proof. repeat split. discriminate. Qed.

(** C8: 400 bytes and then 176 bytes, from the empty remainder. The first
    call yields exactly the two packets [d1[0:188]] and [d1[188:376]] and
    keeps the last 24 bytes; the second call yields exactly one packet,
    those 24 bytes followed by the first 164 bytes of its data, 188 bytes
    in all, and keeps the last 12 bytes. *)
Theorem C8_scenario_400_then_176 (d1 d2 : bytes) :
  len d1 = 400 -> len d2 = 176 ->
  let '(p1, r1) := feed [] d1 in
  let '(p2, r2) := feed r1 d2 in
  p1 = [firstn 188 d1; firstn 188 (skipn 188 d1)]
  /\ Forall (fun p => len p = 188) p1
  /\ r1 = skipn 376 d1 /\ len r1 = 24
  /\ p2 = [r1 ++ firstn 164 d2]
  /\ Forall (fun p => len p = 188) p2
  /\ r2 = skipn 164 d2 /\ len r2 = 12.
Proof.
  intros H1 H2. unfold feed.
  assert (len (skipn 376 d1) = 24) as Hr1.
  { unfold len in *. rewrite length_skipn. lia. }
  rewrite iterdata_no_remainder.
  rewrite iterdata_loop_full by (unfold packetSize; lia).
  rewrite iterdata_loop_full by (unfold packetSize; lia).
  rewrite iterdata_loop_last by (unfold packetSize; lia).
  cbn [fst snd].
  change (Z.to_nat (0 + packetSize + packetSize)) with 376%nat.
  change (Z.to_nat (0 + packetSize)) with 188%nat.
  change (Z.to_nat packetSize) with 188%nat.
  change (Z.to_nat 0) with 0%nat. change (skipn 0 d1) with d1.
  rewrite iterdata_completes by (unfold packetSize; lia).
  rewrite Hr1. change (packetSize - 24) with 164.
  rewrite iterdata_loop_last by (unfold packetSize; lia).
  cbn [fst snd]. change (Z.to_nat 164) with 164%nat.
  assert (len (firstn 188 d1) = 188) as Ha.
  { unfold len in *. rewrite length_firstn. lia. }
  assert (len (firstn 188 (skipn 188 d1)) = 188) as Hb.
  { unfold len in *. rewrite length_firstn, length_skipn. lia. }
  assert (len (skipn 376 d1 ++ firstn 164 d2) = 188) as Hc.
  { rewrite len_app, Hr1. unfold len in *. rewrite length_firstn. lia. }
  repeat split; auto.
  unfold len in *. rewrite length_skipn. lia.
Qed.

Lemma C8_scenario_witness :
  len (pattern 0 400) = 400 /\ len (pattern 400 176) = 176 /\
  let '(p1, r1) := feed [] (pattern 0 400) in
  let '(p2, r2) := feed r1 (pattern 400 176) in
  p1 = [firstn 188 (pattern 0 400); firstn 188 (skipn 188 (pattern 0 400))]
  /\ Forall (fun p => len p = 188) p1
  /\ r1 = skipn 376 (pattern 0 400) /\ len r1 = 24
  /\ p2 = [r1 ++ firstn 164 (pattern 400 176)]
  /\ Forall (fun p => len p = 188) p2
  /\ r2 = skipn 164 (pattern 400 176) /\ len r2 = 12.
Proof.
  split; [reflexivity|split; [reflexivity|]].
  apply (C8_scenario_400_then_176 (pattern 0 400) (pattern 400 176));
    reflexivity.
Defined.

End FeedFacts.

(** * Properties of the life cycle *)

Section LifeCycle.
Import Py Effects Base.
Context {S : Type} `{Sink S}.

(** [write] on a sink whose flag is false raises the error of
    [Output.write], hands nothing to the destination and changes
    nothing. *)
Lemma write_when_closed (w : World) (data : bytes) (o : Output S) :
  opened o = Some false -> write w data o = (Raise NotOpenError, o, []).
Proof.
  intros Ho. unfold write, bind, get_opened. rewrite Ho. reflexivity.
Qed.

(** [close] on a sink whose flag is false returns normally without
    running [_close]. *)
Lemma close_when_closed (w : World) (o : Output S) :
  opened o = Some false ->
  close w o = (Ok tt, mkOutput (Some false) (self o), []).
Proof.
  intros Ho. unfold close, bind, get_opened. rewrite Ho. reflexivity.
Qed.

(** [close] on an opened sink runs [_close] once; the flag is cleared
    when [_close] returns and keeps its value when [_close] raises. *)
Lemma close_when_opened (w : World) (o : Output S) :
  opened o = Some true ->
  close w o
  = (match fst (fst (_close w (self o))) with
     | Ok _ => Ok tt
     | Raise e => Raise e
     end,
     mkOutput (match fst (fst (_close w (self o))) with
               | Ok _ => Some false
               | Raise _ => Some true
               end) (snd (fst (_close w (self o)))),
     snd (_close w (self o))).
Proof.
  intros Ho. unfold close, bind, get_opened, on_self. rewrite Ho.
  destruct (_close w (self o)) as [[[u|e] s'] t]; simpl.
  - now rewrite app_nil_r.
  - now rewrite Ho.
Qed.

(** A second [close] after one that returned does nothing. *)
Lemma close_twice (w w' : World) (o o' : Output S) (t : list event) :
  close w o = (Ok tt, o', t) ->
  close w' o' = (Ok tt, o', []).
Proof.
  unfold close at 1. unfold bind, get_opened.
  destruct (opened o) as [b|]; [|discriminate].
  destruct b; unfold on_self; simpl.
  - destruct (_close w (self o)) as [[[u|e] s'] t']; simpl; [|discriminate].
    intros E. inversion E; subst. now rewrite close_when_closed.
  - intros E. inversion E; subst. now rewrite close_when_closed.
Qed.

(** [open]: the flag is set when [_open] returns and is left alone when
    [_open] raises. *)
Lemma open_outcome (w : World) (o : Output S) :
  open w o
  = (match fst (fst (_open w (self o))) with
     | Ok _ => Ok tt
     | Raise e => Raise e
     end,
     mkOutput (match fst (fst (_open w (self o))) with
               | Ok _ => Some true
               | Raise _ => opened o
               end) (snd (fst (_open w (self o)))),
     snd (_open w (self o))).
Proof.
  unfold open, bind, on_self.
  destruct (_open w (self o)) as [[[u|e] s'] t]; simpl.
  - now rewrite app_nil_r.
  - reflexivity.
Qed.

(** C5, as the code has it: [close] on an opened sink clears the flag
    when the teardown [_close] returns; when the teardown raises, the
    error leaves [close] and the flag stays true. *)
Theorem C5_close_clears_opened_when_teardown_returns (w : World) (o : Output S) :
  opened o = Some true ->
  let '(r, o', t) := close w o in
  match fst (fst (_close w (self o))) with
  | Ok _ => r = Ok tt /\ opened o' = Some false
  | Raise e => r = Raise e /\ opened o' = Some true
  end
  /\ self o' = snd (fst (_close w (self o)))
  /\ t = snd (_close w (self o)).
Proof.
  intros Ho. rewrite (close_when_opened w o Ho).
  destruct (fst (fst (_close w (self o)))); simpl; auto.
Qed.

End LifeCycle.

Section LifeCycleCases.
Import Py Effects Base Samples.

Lemma C5_close_witness :
  opened opened_file_sink = Some true /\
  let '(r, o', t) := close fd_close_fails opened_file_sink in
  match fst (fst (_close fd_close_fails (self opened_file_sink))) with
  | Ok _ => r = Ok tt /\ opened o' = Some false
  | Raise e => r = Raise e /\ opened o' = Some true
  end
  /\ self o' = snd (fst (_close fd_close_fails (self opened_file_sink)))
  /\ t = snd (_close fd_close_fails (self opened_file_sink)).
Proof.
  split; [reflexivity|].
  apply (C5_close_clears_opened_when_teardown_returns
           fd_close_fails opened_file_sink).
  reflexivity.
Defined.

(** C5 as stated fails: a [FileOutput] opened on ["out.ts"] whose
    [fd.close()] raises. [close] raises that error after the one call
    [fd.close()], and the flag is still true. *)
Lemma C5_opened_stays_true_when_teardown_raises :
  opened opened_file_sink = Some true
  /\ close fd_close_fails opened_file_sink
     = (Raise (IOError "No space left on device"), opened_file_sink,
        [FdClose (File "out.ts")])
  /\ opened (after (close fd_close_fails opened_file_sink)) <> Some false.
Proof. repeat split. discriminate. Qed.

(** C3, on sinks that were constructed and never opened: in each of the
    three classes [write] raises [AttributeError] for the attribute
    [opened], which no constructor has assigned, and not the
    [IOError] of [Output.write]; no data reaches the destination. The
    constructor of the base class, which none of the three calls, would
    have made it the [IOError]. *)
Theorem C3_write_before_open_raises_AttributeError :
  (forall w data filename fd,
      write w data (FileOutput.__init__ filename fd)
      = (Raise (AttributeError "opened"), FileOutput.__init__ filename fd, []))
  /\ (forall w data cmd args filename quiet kill call http namedpipe,
         let o := PlayerOutput.__init__ cmd args filename quiet kill call
                    http namedpipe in
         write w data o = (Raise (AttributeError "opened"), o, []))
  /\ (forall w data url,
         write w data (MulticastOutput.__init__ url)
         = (Raise (AttributeError "opened"), MulticastOutput.__init__ url, []))
  /\ AttributeError "opened" <> NotOpenError
  /\ (forall w data filename fd,
         write w data (Base.__init__ (FileOutput.__init__ filename fd))
         = (Raise NotOpenError,
            Base.__init__ (FileOutput.__init__ filename fd), [])).
Proof.
  repeat split; discriminate.
Qed.

(** C4, on sinks that were constructed and never opened: in each of the
    three classes [close] raises [AttributeError] for the attribute
    [opened] where the claim has it return; no teardown is run. *)
Theorem C4_close_never_opened_raises :
  (forall w filename fd,
      close w (FileOutput.__init__ filename fd)
      = (Raise (AttributeError "opened"), FileOutput.__init__ filename fd, []))
  /\ (forall w cmd args filename quiet kill call http namedpipe,
         let o := PlayerOutput.__init__ cmd args filename quiet kill call
                    http namedpipe in
         close w o = (Raise (AttributeError "opened"), o, []))
  /\ (forall w url,
         close w (MulticastOutput.__init__ url)
         = (Raise (AttributeError "opened"), MulticastOutput.__init__ url, [])).
Proof.
  repeat split.
Qed.

End LifeCycleCases.

(** * Properties of [PlayerOutput] *)

Section PlayerFacts.
Import Py Effects Base PlayerOutput.

(** [_open_subprocess] once the arguments are built and the child is
    spawned: one sleep and one poll follow; an exited child raises the
    premature-exit error; for a live child the input channel, if any, is
    opened next. *)
Lemma _open_subprocess_spawned (w : World) (s : t) (argv : list string) :
  _create_arguments w s = Ok argv ->
  raises w (Popen argv (stdin_is_pipe s)) = None ->
  _open_subprocess w s
  = match returncode w with
    | Some _ => (Raise PrematureExitError, spawned s, spawn_events argv s)
    | None => (outcome w (channel_open_events s), spawned s,
               (spawn_events argv s ++ channel_open_events s)%list)
    end.
Proof.
  intros Hargs Hspawn.
  unfold _open_subprocess, bind, get, lift, extern, set_player, running,
    effect, get_player, ret, raise, spawn_events, channel_open_events,
    spawned, stdin_is_pipe in *.
  rewrite Hargs. simpl. rewrite Hspawn. simpl.
  destruct (returncode w) as [code|]; simpl; [reflexivity|].
  destruct s as [c a k cl q f np h si so se p]; simpl in *.
  destruct np as [np|]; simpl.
  - destruct (raises w PipeOpen); reflexivity.
  - destruct h as [h|]; simpl; [|reflexivity].
    destruct (raises w HttpOpen); reflexivity.
Qed.

Lemma _open_async (w : World) (s : t) (argv : list string) :
  call s && truthy (filename s) = false ->
  _create_arguments w s = Ok argv ->
  raises w (Popen argv (stdin_is_pipe s)) = None ->
  _open w s
  = match returncode w with
    | Some _ => (Raise PrematureExitError, spawned s,
                 (spawn_events argv s ++ finally_events s)%list)
    | None => (outcome w (channel_open_events s), spawned s,
               (spawn_events argv s ++ channel_open_events s
                  ++ finally_events s)%list)
    end.
Proof.
  intros Hmode Hargs Hspawn.
  unfold _open, try_finally.
  unfold bind at 1. unfold get at 1. rewrite Hmode.
  rewrite (_open_subprocess_spawned w s argv Hargs Hspawn).
  unfold finally_events, bind, get, effect, ret.
  destruct (returncode w) as [code|]; simpl;
    destruct (quiet s); simpl; rewrite ?app_nil_r, <- ?app_assoc; reflexivity.
Qed.

(** C6: in async spawn mode, once the child is spawned, [open] sleeps and
    polls once. If the child has exited, [open] raises the
    premature-exit error, the flag [opened] is not set, and no input
    channel is opened. If the child is alive, the named pipe or HTTP
    sink, if any, is opened after the poll, and [open] succeeds and sets
    the flag when that call does. *)
Theorem C6_liveness_check (w : World) (o : Output t) (argv : list string) :
  call (self o) && truthy (filename (self o)) = false ->
  _create_arguments w (self o) = Ok argv ->
  raises w (Popen argv (stdin_is_pipe (self o))) = None ->
  let '(r, o', tr) := open w o in
  match returncode w with
  | Some _ =>
      r = Raise PrematureExitError
      /\ opened o' = opened o
      /\ tr = (spawn_events argv (self o) ++ finally_events (self o))%list
  | None =>
      tr = (spawn_events argv (self o) ++ channel_open_events (self o)
              ++ finally_events (self o))%list
      /\ r = outcome w (channel_open_events (self o))
      /\ (r = Ok tt -> opened o' = Some true)
  end.
Proof.
  intros Hmode Hargs Hspawn.
  rewrite open_outcome. simpl.
  rewrite (_open_async w (self o) argv Hmode Hargs Hspawn).
  destruct (returncode w) as [code|]; simpl.
  - repeat split.
  - destruct (outcome w (channel_open_events (self o))) as [[]|e]; simpl;
      repeat split. discriminate.
Qed.

End PlayerFacts.

Section PlayerCases.
Import Py Effects Base PlayerOutput Samples.

Lemma C6_liveness_witness :
  call (self player_sink) && truthy (filename (self player_sink)) = false
  /\ _create_arguments exited (self player_sink) = Ok ["vlc"; "-"]%string
  /\ raises exited (Popen ["vlc"; "-"]%string (stdin_is_pipe (self player_sink)))
     = None
  /\ let '(r, o', tr) := open exited player_sink in
     match returncode exited with
     | Some _ =>
         r = Raise PrematureExitError
         /\ opened o' = opened player_sink
         /\ tr = (spawn_events ["vlc"; "-"]%string (self player_sink)
                    ++ finally_events (self player_sink))%list
     | None =>
         tr = (spawn_events ["vlc"; "-"]%string (self player_sink)
                 ++ channel_open_events (self player_sink)
                 ++ finally_events (self player_sink))%list
         /\ r = outcome exited (channel_open_events (self player_sink))
         /\ (r = Ok tt -> opened o' = Some true)
     end.
Proof.
  split; [reflexivity|split; [reflexivity|split; [reflexivity|]]].
  apply (C6_liveness_check exited player_sink ["vlc"; "-"]%string);
    reflexivity.
Defined.

End PlayerCases.

Section PlayerClose.
Import Py Effects Base PlayerOutput.

Ltac split_cases :=
  repeat (simpl;
          match goal with
          | |- context [raises ?w ?ev] =>
              let E := fresh "E" in destruct (raises w ev) eqn:E
          | |- context [is_Exception ?e] =>
              let E := fresh "E" in destruct (is_Exception e) eqn:E
          end).

(** [_close] assigns no attribute; its external calls are an initial
    part of [close_sequence], all of it when [_close] returns, and all of
    it whenever the player exists, its input was closed without error
    and killing it raised at most an [Exception]. *)
Lemma _close_order (w : World) (s : t) :
  let '(r, s', tr) := _close w s in
  s' = s
  /\ (exists rest, close_sequence s = (tr ++ rest)%list)
  /\ (r = Ok tt -> tr = close_sequence s)
  /\ (player s <> None ->
      fst (fst (close_input w s)) = Ok tt ->
      (forall e, raises w Kill = Some e -> is_Exception e = true) ->
      tr = close_sequence s /\ r = outcome w [Wait]).
Proof.
  destruct s as [c a k cl q f np h si so se p].
  unfold _close, close_input, kill_step, player_wait, player_stdin_close,
    player_kill, ignored, bind, get, extern, get_player, ret, raise,
    close_sequence, input_close_events, kill_events, outcome.
  simpl.
  destruct np as [np|]; [|destruct h as [h|]; [|destruct (truthy f)]];
    simpl; destruct p as [[pipe]|]; simpl;
    try destruct pipe; simpl;
    destruct k; simpl;
    split_cases;
    simpl;
    (split; [reflexivity|]);
    (split; [eexists; reflexivity|]);
    (split; [intros; try reflexivity; try discriminate|]);
    intros Hp Hin Hk;
    try (exfalso; apply Hp; reflexivity);
    try discriminate;
    try (split; reflexivity);
    try (specialize (Hk _ eq_refl); congruence).
Qed.

End PlayerClose.

Section PlayerCloseCases.
Import Py Effects Base PlayerOutput Samples.

(** C9: closing an opened [PlayerOutput] makes its external calls in the
    order of [close_sequence] and makes no other: first the input of the
    player is closed (the named pipe, else the HTTP sink, else, without a
    file name, the standard input of the player), then the player is
    killed if [kill] is set, then it is waited for. A [close] that
    returns has made all of them. When the player exists and its input
    was closed without error, the wait is made whether or not [kill] is
    set and whatever [Exception] the kill raised, and decides the outcome
    of [close]. *)
Theorem C9_close_sequence_order (w : World) (o : Output t) :
  opened o = Some true ->
  let '(r, o', tr) := close w o in
  (exists rest, close_sequence (self o) = (tr ++ rest)%list)
  /\ (r = Ok tt -> tr = close_sequence (self o))
  /\ (player (self o) <> None ->
      fst (fst (close_input w (self o))) = Ok tt ->
      (forall e, raises w Kill = Some e -> is_Exception e = true) ->
      tr = close_sequence (self o) /\ r = outcome w [Wait]).
Proof.
  intros Ho. rewrite (close_when_opened w o Ho).
  pose proof (_close_order w (self o)) as H.
  change (@Base._close t sink w (self o)) with (_close w (self o)).
  destruct (_close w (self o)) as [[r s'] tr].
  destruct H as (Hs & Hpre & Hok & Hall). cbn [fst snd].
  split; [exact Hpre|split].
  - intros Hr. apply Hok. destruct r as [[]|e]; [reflexivity|discriminate].
  - intros Hp Hin Hk. destruct (Hall Hp Hin Hk) as [Htr Hr].
    split; [exact Htr|]. rewrite Hr.
    unfold outcome. destruct (raises w Wait); reflexivity.
Qed.

Lemma C9_close_sequence_witness :
  opened opened_player_sink = Some true /\
  let '(r, o', tr) := close kill_fails opened_player_sink in
  (exists rest, close_sequence (self opened_player_sink) = (tr ++ rest)%list)
  /\ (r = Ok tt -> tr = close_sequence (self opened_player_sink))
  /\ (player (self opened_player_sink) <> None ->
      fst (fst (close_input kill_fails (self opened_player_sink))) = Ok tt ->
      (forall e, raises kill_fails Kill = Some e -> is_Exception e = true) ->
      tr = close_sequence (self opened_player_sink)
      /\ r = outcome kill_fails [Wait]).
Proof.
  split; [reflexivity|].
  apply (C9_close_sequence_order kill_fails opened_player_sink).
  reflexivity.
Defined.

(** In blocking call mode [_open] assigns no attribute. *)
Lemma _open_call_mode_state (w : World) (s : t) :
  call s && truthy (filename s) = true ->
  snd (fst (_open w s)) = s.
Proof.
  intros Hmode.
  unfold _open, try_finally, _open_call, bind, get, lift, extern, effect, ret.
  rewrite Hmode.
  destruct (_create_arguments w s) as [argv|e]; simpl.
  - destruct (raises w (Call argv)); destruct (quiet s); reflexivity.
  - destruct (quiet s); reflexivity.
Qed.

(** C10: a [PlayerOutput] built with [call] set and a file name, once
    [open] has returned, has no attribute [player] and is opened. On it
    the kill step of [_close] returns (the attribute error is ignored)
    and [self.player.wait()] raises the attribute error. So [close],
    when closing the named pipe or HTTP sink, if one is configured too,
    does not fail first, raises that error having neither killed nor
    waited for a player, and the sink stays opened. *)
Theorem C10_call_mode_close_raises
        (w w' : World) (cmd args name : string) (quiet kill : bool)
        (http : option HTTPServer) (namedpipe : option NamedPipe)
        (o' : Output t) (tr : list event) :
  truthy (Some name) = true ->
  open w (__init__ cmd args (Some name) quiet kill true http namedpipe)
  = (Ok tt, o', tr) ->
  player (self o') = None
  /\ opened o' = Some true
  /\ kill_step w' (self o') = (Ok tt, self o', [])
  /\ player_wait w' (self o') = (Raise (AttributeError "player"), self o', [])
  /\ (outcome w' (input_close_events (self o')) = Ok tt ->
      close w' o'
      = (Raise (AttributeError "player"), o', input_close_events (self o'))).
Proof.
  intros Hname Hopen.
  set (o := __init__ cmd args (Some name) quiet kill true http namedpipe) in *.
  assert (call (self o) && truthy (filename (self o)) = true) as Hmode.
  { simpl. exact Hname. }
  rewrite open_outcome in Hopen.
  change (@Base._open t sink w (self o)) with (_open w (self o)) in Hopen.
  pose proof (_open_call_mode_state w (self o) Hmode) as Hst.
  destruct (_open w (self o)) as [[r s'] tr0]. simpl in Hst, Hopen. subst s'.
  destruct r as [u|e]; [|discriminate].
  inversion Hopen; subst o' tr0. clear Hopen.
  simpl in Hname |- *.
  split; [reflexivity|split; [reflexivity|split; [|split]]].
  - unfold kill_step, ignored, player_kill, bind, get, get_player, ret. simpl.
    destruct kill; reflexivity.
  - reflexivity.
  - unfold close, on_self, bind, get_opened. simpl.
    unfold _close, close_input, kill_step, player_wait, ignored, player_kill,
      bind, get, get_player, extern, ret, input_close_events. simpl.
    rewrite Hname. simpl.
    destruct namedpipe as [np|]; [|destruct http as [h|]]; simpl;
      try destruct (raises w' PipeClose); try destruct (raises w' HttpClose);
      try discriminate; intros _; destruct kill; reflexivity.
Qed.

Lemma C10_call_mode_witness :
  truthy (Some "movie.ts"%string) = true
  /\ open calm call_sink
     = (Ok tt, after (open calm call_sink),
        [Call ["vlc"; "movie.ts"]%string;
         StreamClose child_stdout; StreamClose child_stderr])
  /\ player (self (after (open calm call_sink))) = None
  /\ opened (after (open calm call_sink)) = Some true
  /\ kill_step calm (self (after (open calm call_sink)))
     = (Ok tt, self (after (open calm call_sink)), [])
  /\ player_wait calm (self (after (open calm call_sink)))
     = (Raise (AttributeError "player"), self (after (open calm call_sink)), [])
  /\ (outcome calm (input_close_events (self (after (open calm call_sink))))
      = Ok tt ->
      close calm (after (open calm call_sink))
      = (Raise (AttributeError "player"), after (open calm call_sink),
         input_close_events (self (after (open calm call_sink))))).
Proof.
  split; [reflexivity|split; [reflexivity|]].
  apply (C10_call_mode_close_raises calm calm "vlc" "{filename}" "movie.ts"
           true true None None (after (open calm call_sink))
           [Call ["vlc"; "movie.ts"]%string;
            StreamClose child_stdout; StreamClose child_stderr]);
    reflexivity.
Defined.

End PlayerCloseCases.

(** * Properties of [MulticastOutput] *)

Section MulticastFacts.
Import Py Effects Base MulticastOutput.

(** While packets are being sent, [self.remainder] is what it was, what it
    was when the call began, or empty. *)
Lemma send_packets_remainder (w : World) (so : option socket_t)
      (addr : string * Z) (entry : bytes) (packets : list bytes) :
  forall (k : nat) (s : t),
    remainder (snd (fst (send_packets w so addr entry k packets s)))
    = remainder s
    \/ remainder (snd (fst (send_packets w so addr entry k packets s)))
       = entry
    \/ remainder (snd (fst (send_packets w so addr entry k packets s)))
       = [].
Proof.
  induction packets as [|p ps IH]; intros k s; simpl.
  - now left.
  - unfold bind, set_remainder.
    set (s1 := {| url := url s; address := address s;
                  interface_ip := interface_ip s; socket := socket s;
                  remainder := Packetizer.remainder_at_yield entry k |}).
    assert (remainder s1 = entry \/ remainder s1 = []) as H1.
    { destruct k; simpl; auto. }
    destruct so as [so|]; unfold extern, raise.
    + destruct (raises w (Sendto p (fst addr) (snd addr))); simpl.
      * tauto.
      * specialize (IH (S k) s1).
        destruct (send_packets w (Some so) addr entry (S k) ps s1) as [[r s2] tr].
        simpl in *. destruct IH as [IH|IH]; [rewrite IH|]; tauto.
    + simpl. tauto.
Qed.

(** The remainder of the sink stays shorter than a packet across [_write],
    also when sending a packet fails in the middle of a call. *)
Lemma _write_remainder_lt (w : World) (data : bytes) (s : t) :
  len (remainder s) < Packetizer.packetSize ->
  len (remainder (snd (fst (_write w data s)))) < Packetizer.packetSize.
Proof.
  intros Hs. unfold _write, iterdata.
  unfold bind at 1. unfold get at 1.
  pose proof (iterdata_remainder_lt (remainder s) data Packetizer.packetSize
                eq_refl) as Hr.
  destruct (Packetizer.iterdata (remainder s) data Packetizer.packetSize)
    as [packets r']. simpl in Hr.
  pose proof (send_packets_remainder w (socket s) (address s) (remainder s)
                packets 0 s) as Hsend.
  unfold bind.
  destruct (send_packets w (socket s) (address s) (remainder s) 0 packets s)
    as [[[u|e] s1] tr]; simpl in *.
  - exact Hr.
  - destruct Hsend as [H|[H|H]]; rewrite H; try exact Hs.
    unfold len; simpl; unfold Packetizer.packetSize; lia.
Qed.

End MulticastFacts.

(** * Further properties of the packetizer *)

Section PacketizerMore.
Import Py Packetizer.

Lemma len_concat_full (size : Z) (ps : list bytes) :
  Forall (fun p => len p = size) ps ->
  len (List.concat ps) = size * len ps.
Proof.
  induction 1 as [|p ps Hp Hps IH]; simpl.
  - unfold len. simpl. lia.
  - rewrite len_app, IH, Hp. unfold len. simpl List.length. lia.
Qed.

Lemma split_at_prefix {A} (l1 l2 l : list A) :
  (l1 ++ l2)%list = l ->
  firstn (List.length l1) l = l1 /\ skipn (List.length l1) l = l2.
Proof.
  intros <-. split.
  - rewrite firstn_app, Nat.sub_diag, firstn_all. simpl. apply app_nil_r.
  - rewrite skipn_app, Nat.sub_diag, skipn_all. reflexivity.
Qed.

(** Calls that each bring at least one packet of data yield full packets
    only. *)
Lemma feed_all_full_packets (calls : list bytes) :
  forall remainder,
    len remainder < packetSize ->
    Forall (fun d => packetSize <= len d) calls ->
    Forall (fun p => len p = packetSize) (fst (feed_all remainder calls)).
Proof.
  induction calls as [|data calls IH]; intros remainder Hr Hc; simpl.
  - constructor.
  - inversion Hc as [|d ds Hd Hds]; subst.
    pose proof (iterdata_remainder_lt remainder data packetSize eq_refl) as H1.
    pose proof (iterdata_full_packets packetSize remainder data Hr) as H2.
    pose proof (len_nonneg remainder) as Hn.
    unfold feed. destruct (iterdata remainder data packetSize) as [ps r].
    simpl in H1, H2. specialize (IH r H1 Hds).
    destruct (feed_all r calls) as [ps' r']. simpl in *.
    apply Forall_app. split; [apply H2; right; lia|exact IH].
Qed.

(** X1: one [iterdata] call loses, adds and reorders no byte: the packets
    yielded, concatenated, followed by the remainder kept, are the
    remainder that was pending followed by [data]. *)
Theorem X1_iterdata_conserves_bytes (size : Z) (remainder data : bytes) :
  0 < size -> len remainder < size ->
  List.concat (fst (iterdata remainder data size))
    ++ snd (iterdata remainder data size)
  = remainder ++ data.
Proof. intros Hs Hr. apply iterdata_conserves; assumption. Qed.

Lemma X1_iterdata_conserves_witness :
  0 < 188 /\ len (pattern 0 100) < 188 /\
  List.concat (fst (iterdata (pattern 0 100) (pattern 100 500) 188))
    ++ snd (iterdata (pattern 0 100) (pattern 100 500) 188)
  = pattern 0 100 ++ pattern 100 500.
Proof.
  split; [reflexivity|split; [reflexivity|]].
  apply (X1_iterdata_conserves_bytes 188 (pattern 0 100) (pattern 100 500));
    reflexivity.
Defined.

(** X2: when nothing is pending, or when [data] is long enough to complete
    the pending remainder, every packet of the call has exactly [size]
    bytes. *)
Theorem X2_iterdata_full_packets (size : Z) (remainder data : bytes) :
  len remainder < size ->
  remainder = [] \/ size <= len remainder + len data ->
  Forall (fun p => len p = size) (fst (iterdata remainder data size)).
Proof. intros Hr Hc. apply iterdata_full_packets; assumption. Qed.

Lemma X2_iterdata_full_packets_witness :
  len (pattern 0 100) < 188
  /\ (pattern 0 100 = [] \/ 188 <= len (pattern 0 100) + len (pattern 100 500))
  /\ Forall (fun p => len p = 188)
       (fst (iterdata (pattern 0 100) (pattern 100 500) 188)).
Proof.
  split; [reflexivity|split; [right; discriminate|]].
  apply (X2_iterdata_full_packets 188 (pattern 0 100) (pattern 100 500));
    [reflexivity|right; discriminate].
Defined.

(** X3: when a remainder is pending and [data] is too short to complete it
    (empty [data] included), the call yields exactly one packet, the
    remainder followed by [data], shorter than [size], and keeps nothing. *)
Theorem X3_iterdata_short_feed_flushes (size : Z) (remainder data : bytes) :
  0 < len remainder -> len remainder + len data < size ->
  iterdata remainder data size = ([remainder ++ data], [])
  /\ len (remainder ++ data) < size.
Proof.
  intros Hr Hd. split.
  - apply iterdata_short; [|assumption|assumption].
    pose proof (len_nonneg data). lia.
  - rewrite len_app. exact Hd.
Qed.

Lemma X3_iterdata_short_feed_witness :
  0 < len (pattern 0 24) /\ len (pattern 0 24) + len (@nil byte) < 188
  /\ iterdata (pattern 0 24) [] 188 = ([pattern 0 24 ++ []], [])
  /\ len (pattern 0 24 ++ []) < 188.
Proof.
  split; [reflexivity|split; [reflexivity|]].
  apply (X3_iterdata_short_feed_flushes 188 (pattern 0 24) []); reflexivity.
Defined.

(** X4: with nothing pending, a call on [data] yields [len(data) // size]
    packets, which are the leading bytes of [data] in order, and keeps the
    last [len(data) % size] bytes. *)
Theorem X4_iterdata_counts (size : Z) (data : bytes) :
  0 < size ->
  len (fst (iterdata [] data size)) = len data / size
  /\ len (snd (iterdata [] data size)) = len data mod size
  /\ List.concat (fst (iterdata [] data size))
     = firstn (Z.to_nat (len data - len data mod size)) data
  /\ snd (iterdata [] data size)
     = skipn (Z.to_nat (len data - len data mod size)) data.
Proof.
  intros Hs.
  assert (len (@nil byte) < size) as H0 by (unfold len; simpl; lia).
  pose proof (iterdata_conserves size Hs [] data H0) as Hc.
  pose proof (iterdata_full_packets size [] data H0 (or_introl eq_refl)) as Hf.
  pose proof (iterdata_remainder_lt [] data size Hs) as Hr.
  destruct (iterdata [] data size) as [ps r]. simpl in *.
  pose proof (len_nonneg r) as Hr0.
  pose proof (len_concat_full size ps Hf) as Hl.
  assert (len data = size * len ps + len r) as Hd.
  { rewrite <- Hc, len_app. lia. }
  assert (len ps = len data / size) as Hq.
  { apply (Z.div_unique _ _ _ (len r)); [left; lia|exact Hd]. }
  assert (len r = len data mod size) as Hm.
  { apply (Z.mod_unique _ _ (len ps)); [left; lia|exact Hd]. }
  destruct (split_at_prefix _ _ _ Hc) as [H1 H2].
  assert (Z.to_nat (len data - len data mod size) = List.length (List.concat ps))
    as Hn.
  { rewrite <- Hm, Hd. unfold len in *. lia. }
  rewrite Hn. repeat split; auto.
Qed.

Lemma X4_iterdata_counts_witness :
  0 < 188
  /\ len (fst (iterdata [] (pattern 0 400) 188)) = len (pattern 0 400) / 188
  /\ len (snd (iterdata [] (pattern 0 400) 188)) = len (pattern 0 400) mod 188
  /\ List.concat (fst (iterdata [] (pattern 0 400) 188))
     = firstn (Z.to_nat (len (pattern 0 400) - len (pattern 0 400) mod 188))
         (pattern 0 400)
  /\ snd (iterdata [] (pattern 0 400) 188)
     = skipn (Z.to_nat (len (pattern 0 400) - len (pattern 0 400) mod 188))
         (pattern 0 400).
Proof.
  split; [reflexivity|].
  apply (X4_iterdata_counts 188 (pattern 0 400)). reflexivity.
Defined.

(** X5: over any sequence of calls from a remainder shorter than a packet,
    the bytes yielded followed by the last remainder are the bytes that
    were pending followed by all the data fed, in order. *)
Theorem X5_feed_all_conserves_bytes (calls : list bytes) (remainder : bytes) :
  len remainder < packetSize ->
  List.concat (fst (feed_all remainder calls)) ++ snd (feed_all remainder calls)
  = remainder ++ List.concat calls.
Proof. apply feed_all_conserves. Qed.

Lemma X5_feed_all_conserves_witness :
  len (pattern 0 10) < packetSize /\
  List.concat (fst (feed_all (pattern 0 10) [pattern 10 5; pattern 15 400]))
    ++ snd (feed_all (pattern 0 10) [pattern 10 5; pattern 15 400])
  = pattern 0 10 ++ List.concat [pattern 10 5; pattern 15 400].
Proof.
  split; [reflexivity|].
  apply (X5_feed_all_conserves_bytes [pattern 10 5; pattern 15 400]
           (pattern 0 10)).
  reflexivity.
Defined.

(** X6: when every call brings at least 188 bytes, the calls from the
    empty remainder yield packets of 188 bytes only, and together they are
    the longest prefix of the input whose length is a multiple of 188; the
    rest, shorter than 188 bytes, is the remainder. *)
Theorem X6_feed_all_reassembles_long_feeds (calls : list bytes) :
  Forall (fun d => packetSize <= len d) calls ->
  Forall (fun p => len p = packetSize) (fst (feed_all [] calls))
  /\ List.concat (fst (feed_all [] calls)) = aligned_prefix (List.concat calls)
  /\ (aligned_prefix (List.concat calls) ++ snd (feed_all [] calls))%list
     = List.concat calls
  /\ len (snd (feed_all [] calls)) < packetSize.
Proof.
  intros Hc.
  assert (len (@nil byte) < packetSize) as H0 by reflexivity.
  pose proof (feed_all_full_packets calls [] H0 Hc) as Hf.
  pose proof (feed_all_conserves calls [] H0) as Hcons.
  pose proof (feed_all_remainder_lt calls [] H0) as Hr.
  destruct (feed_all [] calls) as [ps r]. simpl in *.
  pose proof (len_nonneg r) as Hr0.
  pose proof (len_concat_full packetSize ps Hf) as Hl.
  assert (len (List.concat calls) = packetSize * len ps + len r) as Hd.
  { rewrite <- Hcons, len_app. lia. }
  assert (len ps = len (List.concat calls) / packetSize) as Hq.
  { apply (Z.div_unique _ _ _ (len r)); [left; lia|exact Hd]. }
  destruct (split_at_prefix _ _ _ Hcons) as [H1 H2].
  assert (aligned_prefix (List.concat calls) = List.concat ps) as Ha.
  { unfold aligned_prefix. rewrite <- Hq, <- Hl.
    unfold len at 1. rewrite Nat2Z.id. exact H1. }
  rewrite Ha. repeat split; auto.
Qed.

Lemma X6_feed_all_reassembles_witness :
  Forall (fun d => packetSize <= len d) [pattern 0 200; pattern 200 300]
  /\ Forall (fun p => len p = packetSize)
       (fst (feed_all [] [pattern 0 200; pattern 200 300]))
  /\ List.concat (fst (feed_all [] [pattern 0 200; pattern 200 300]))
     = aligned_prefix (List.concat [pattern 0 200; pattern 200 300])
  /\ (aligned_prefix (List.concat [pattern 0 200; pattern 200 300])
        ++ snd (feed_all [] [pattern 0 200; pattern 200 300]))%list
     = List.concat [pattern 0 200; pattern 200 300]
  /\ len (snd (feed_all [] [pattern 0 200; pattern 200 300])) < packetSize.
Proof.
  assert (Forall (fun d => packetSize <= len d) [pattern 0 200; pattern 200 300])
    as H.
  { repeat constructor; discriminate. }
  split; [exact H|].
  apply (X6_feed_all_reassembles_long_feeds [pattern 0 200; pattern 200 300] H).
Defined.

End PacketizerMore.

(** * Further properties of the life cycle and of [FileOutput] *)

Section LifeCycleMore.
Import Py Effects Base.
Context {S : Type} `{Sink S}.

(** A [close] that returned has cleared the flag. *)
Lemma close_returned_flag (w : World) (o o' : Output S) (t : list event) :
  close w o = (Ok tt, o', t) -> opened o' = Some false.
Proof.
  intros Hc. unfold close, bind, get_opened in Hc.
  destruct (opened o) as [[|]|]; try discriminate; unfold on_self in Hc;
    simpl in Hc.
  - destruct (_close w (self o)) as [[[u|e] s'] t']; simpl in Hc;
      [|discriminate].
    inversion Hc. reflexivity.
  - inversion Hc. reflexivity.
Qed.

(** X7: [write] on a sink whose flag [opened] is false raises the
    [IOError] of [Output.write]; [_write] is not run, so nothing reaches
    the destination, and the sink is unchanged. *)
Theorem X7_write_rejected_when_closed (w : World) (data : bytes) (o : Output S) :
  opened o = Some false ->
  write w data o = (Raise NotOpenError, o, []).
Proof. apply write_when_closed. Qed.

(** X8: once a [close] has returned, the flag is false and any further
    [close] returns without running [_close] and without any external
    call. *)
Theorem X8_close_idempotent (w w' : World) (o o' : Output S) (t : list event) :
  close w o = (Ok tt, o', t) ->
  opened o' = Some false /\ close w' o' = (Ok tt, o', []).
Proof.
  intros Hc. split.
  - exact (close_returned_flag w o o' t Hc).
  - exact (close_twice w w' o o' t Hc).
Qed.

(** X9: a sink that was opened and then closed rejects every [write] with
    the [IOError] of [Output.write], whatever the subclass, and hands
    nothing to its destination. *)
Theorem X9_write_after_close_rejected (w1 w2 w3 : World) (data : bytes)
        (o o1 o2 : Output S) (t1 t2 : list event) :
  open w1 o = (Ok tt, o1, t1) ->
  close w2 o1 = (Ok tt, o2, t2) ->
  write w3 data o2 = (Raise NotOpenError, o2, []).
Proof.
  intros _ Hc. apply write_when_closed.
  exact (close_returned_flag w2 o1 o2 t2 Hc).
Qed.

End LifeCycleMore.

Section FileFacts.
Import Py Effects Base FileOutput Samples.

Lemma X7_write_rejected_witness :
  opened closed_file_sink = Some false /\
  write calm [x00] closed_file_sink = (Raise NotOpenError, closed_file_sink, []).
Proof.
  split; [reflexivity|].
  apply (X7_write_rejected_when_closed calm [x00] closed_file_sink).
  reflexivity.
Defined.

Lemma X8_close_idempotent_witness :
  close calm opened_file_sink
  = (Ok tt, closed_file_sink, [FdClose (File "out.ts")])
  /\ opened closed_file_sink = Some false
  /\ close fd_close_fails closed_file_sink = (Ok tt, closed_file_sink, []).
Proof.
  split; [reflexivity|].
  apply (X8_close_idempotent calm fd_close_fails opened_file_sink
           closed_file_sink [FdClose (File "out.ts")]).
  reflexivity.
Defined.

Lemma X9_write_after_close_witness :
  open calm file_sink = (Ok tt, opened_file_sink, [FileOpen "out.ts"])
  /\ close calm opened_file_sink
     = (Ok tt, closed_file_sink, [FdClose (File "out.ts")])
  /\ write calm [x00] closed_file_sink
     = (Raise NotOpenError, closed_file_sink, []).
Proof.
  split; [reflexivity|split; [reflexivity|]].
  apply (X9_write_after_close_rejected calm calm calm [x00] file_sink
           opened_file_sink closed_file_sink [FileOpen "out.ts"]
           [FdClose (File "out.ts")]); reflexivity.
Defined.

(** X10: a [FileOutput] on [stdout] never closes it: whatever the flag
    [opened] holds, [close] returns, makes no external call and leaves
    the descriptor in place. *)
Theorem X10_stdout_never_closed (w : World) (name : option string) (b : bool) :
  close w (mkOutput (Some b) {| filename := name; fd := Some stdout |})
  = (Ok tt, mkOutput (Some false) {| filename := name; fd := Some stdout |}, []).
Proof. destruct b; reflexivity. Qed.

(** X11: a non-empty [filename] takes precedence over a descriptor given
    to the constructor. When the file opens, [fd] is the new file (set to
    binary mode on win32) and the given descriptor is dropped without
    being closed; when opening raises, the error leaves [_open], the given
    descriptor is kept and no other call is made. *)
Theorem X11_filename_takes_precedence (w : World) (name : string)
        (fd0 : option file) :
  truthy (Some name) = true ->
  _open w {| filename := Some name; fd := fd0 |}
  = match raises w (FileOpen name) with
    | Some e =>
        (Raise e, {| filename := Some name; fd := fd0 |}, [FileOpen name])
    | None =>
        (if is_win32 w then outcome w [Setmode (File name)] else Ok tt,
         {| filename := Some name; fd := Some (File name) |},
         FileOpen name :: (if is_win32 w then [Setmode (File name)] else []))
    end.
Proof.
  intros Hn. unfold _open, bind, get, put, extern, ret, outcome.
  cbn [filename fd]. rewrite Hn.
  destruct (raises w (FileOpen name)) as [e|]; [reflexivity|].
  destruct (is_win32 w); simpl; [|reflexivity].
  destruct (raises w (Setmode (File name))); reflexivity.
Qed.

Lemma X11_filename_precedence_witness :
  truthy (Some "out.ts"%string) = true /\
  _open calm {| filename := Some "out.ts"%string; fd := Some stdout |}
  = match raises calm (FileOpen "out.ts") with
    | Some e =>
        (Raise e, {| filename := Some "out.ts"%string; fd := Some stdout |},
         [FileOpen "out.ts"])
    | None =>
        (if is_win32 calm then outcome calm [Setmode (File "out.ts")] else Ok tt,
         {| filename := Some "out.ts"%string; fd := Some (File "out.ts") |},
         FileOpen "out.ts"
           :: (if is_win32 calm then [Setmode (File "out.ts")] else []))
    end.
Proof.
  split; [reflexivity|].
  apply (X11_filename_takes_precedence calm "out.ts" (Some stdout)).
  reflexivity.
Defined.

(** X12: a [FileOutput] on a path, where no call fails and the platform
    is not win32: [open], [write(data)], [close] each return; together
    they open the file, write [data] to it once and close it, in that
    order and with no other call, and the sink ends closed. *)
Theorem X12_file_life_cycle (w : World) (name : string) (fd0 : option file)
        (data : bytes) :
  truthy (Some name) = true ->
  is_win32 w = false ->
  (forall ev, raises w ev = None) ->
  let o0 := FileOutput.__init__ (Some name) fd0 in
  let o1 := mkOutput (Some true)
              {| filename := Some name; fd := Some (File name) |} in
  let o2 := mkOutput (Some false)
              {| filename := Some name; fd := Some (File name) |} in
  open w o0 = (Ok tt, o1, [FileOpen name])
  /\ write w data o1 = (Ok tt, o1, [FdWrite (File name) data])
  /\ close w o1 = (Ok tt, o2, [FdClose (File name)]).
Proof.
  intros Hn Hw Hr. cbv zeta.
  unfold open, write, close, on_self, bind, get_opened, set_opened.
  cbn [self opened FileOutput.__init__ new Base._open Base._write Base._close sink].
  unfold _open, _write, _close, bind, get, put, extern, ret.
  cbn [filename fd]. rewrite Hn, Hw, !Hr. simpl.
  repeat split; rewrite ?Hr; reflexivity.
Qed.

Lemma X12_file_life_cycle_witness :
  truthy (Some "out.ts"%string) = true
  /\ is_win32 calm = false
  /\ (forall ev, raises calm ev = None)
  /\ open calm (FileOutput.__init__ (Some "out.ts"%string) None)
     = (Ok tt,
        mkOutput (Some true)
          {| filename := Some "out.ts"%string; fd := Some (File "out.ts") |},
        [FileOpen "out.ts"])
  /\ write calm [x47]
       (mkOutput (Some true)
          {| filename := Some "out.ts"%string; fd := Some (File "out.ts") |})
     = (Ok tt,
        mkOutput (Some true)
          {| filename := Some "out.ts"%string; fd := Some (File "out.ts") |},
        [FdWrite (File "out.ts") [x47]])
  /\ close calm
       (mkOutput (Some true)
          {| filename := Some "out.ts"%string; fd := Some (File "out.ts") |})
     = (Ok tt,
        mkOutput (Some false)
          {| filename := Some "out.ts"%string; fd := Some (File "out.ts") |},
        [FdClose (File "out.ts")]).
Proof.
  split; [reflexivity|split; [reflexivity|split; [reflexivity|]]].
  apply (X12_file_life_cycle calm "out.ts" None [x47]); reflexivity.
Defined.

(** X13: a [FileOutput] given no usable file name ([None] or ['']) and no
    descriptor. Off win32 [open] returns without any call and marks the
    sink opened; the missing descriptor only shows later: [write] and
    [close] raise [AttributeError], and the sink stays opened. On win32
    [open] itself raises [AttributeError] and the sink is not opened. *)
Theorem X13_no_path_no_descriptor (w : World) (name : option string)
        (data : bytes) :
  truthy name = false ->
  let o0 := FileOutput.__init__ name None in
  let o1 := mkOutput (Some true) {| filename := name; fd := None |} in
  open w o0
  = (if is_win32 w then (Raise (AttributeError "fileno"), o0, [])
     else (Ok tt, o1, []))
  /\ write w data o1 = (Raise (AttributeError "write"), o1, [])
  /\ close w o1 = (Raise (AttributeError "close"), o1, []).
Proof.
  intros Hn. cbv zeta.
  unfold open, write, close, on_self, bind, get_opened, set_opened.
  cbn [self opened FileOutput.__init__ new Base._open Base._write Base._close sink].
  unfold _open, _write, _close, bind, get, put, extern, ret, raise.
  cbn [filename fd].
  destruct name as [name|]; simpl in *; [rewrite Hn|];
    destruct (is_win32 w); repeat split.
Qed.

Lemma X13_no_path_no_descriptor_witness :
  truthy (Some ""%string) = false /\
  open calm (FileOutput.__init__ (Some ""%string) None)
  = (if is_win32 calm
     then (Raise (AttributeError "fileno"),
           FileOutput.__init__ (Some ""%string) None, [])
     else (Ok tt,
           mkOutput (Some true) {| filename := Some ""%string; fd := None |}, []))
  /\ write calm [x47]
       (mkOutput (Some true) {| filename := Some ""%string; fd := None |})
     = (Raise (AttributeError "write"),
        mkOutput (Some true) {| filename := Some ""%string; fd := None |}, [])
  /\ close calm
       (mkOutput (Some true) {| filename := Some ""%string; fd := None |})
     = (Raise (AttributeError "close"),
        mkOutput (Some true) {| filename := Some ""%string; fd := None |}, []).
Proof.
  split; [reflexivity|].
  apply (X13_no_path_no_descriptor calm (Some ""%string) [x47]).
  reflexivity.
Defined.

End FileFacts.

(** * Further properties of [PlayerOutput] *)

Section PlayerMore.
Import Py Effects Base PlayerOutput Samples.

(** The body of the [try] in [_open] leaves the object as it was or with
    [self.player] assigned. *)
Lemma _open_subprocess_state (w : World) (s : t) :
  snd (fst (_open_subprocess w s)) = s
  \/ snd (fst (_open_subprocess w s)) = spawned s.
Proof.
  unfold _open_subprocess, bind, get, lift, extern, set_player, running,
    effect, get_player, ret, raise, spawned.
  destruct (_create_arguments w s) as [argv|e]; simpl; [|now left].
  destruct (raises w (Popen argv (stdin_is_pipe s))); simpl; [now left|].
  destruct (returncode w); simpl; [now right|].
  destruct (namedpipe s); simpl;
    [destruct (raises w PipeOpen); now right|].
  destruct (http s); simpl; [destruct (raises w HttpOpen)|]; now right.
Qed.

Lemma _open_call_state (w : World) (s : t) :
  snd (fst (_open_call w s)) = s.
Proof.
  unfold _open_call, bind, get, lift, extern.
  destruct (_create_arguments w s) as [argv|e]; simpl; [|reflexivity].
  destruct (raises w (Call argv)); reflexivity.
Qed.

(** X14: a player that is fed through a pipe on its standard input (no
    named pipe, no non-empty file name, no HTTP sink given to the
    constructor) is always started with ["-"] in the place of
    [{filename}]. *)
Theorem X14_pipe_player_reads_dash (w : World) (cmd args : string)
        (filename : option string) (quiet kill call : bool)
        (http : option HTTPServer) (namedpipe : option NamedPipe) :
  let o := __init__ cmd args filename quiet kill call http namedpipe in
  stdin_is_pipe (self o) = true ->
  _create_arguments w (self o)
  = and_then (format_filename w args "-") (fun a =>
    let '(c', a') :=
      if is_win32 w then (double_backslashes cmd, double_backslashes a)
      else (cmd, a) in
    and_then (shlex_split w c') (fun c =>
    and_then (shlex_split w a') (fun a'' => Ok (c ++ a'')%list))).
Proof.
  cbv zeta. unfold stdin_is_pipe, __init__, new, _create_arguments.
  cbn [self PlayerOutput.stdin PlayerOutput.namedpipe PlayerOutput.filename
       PlayerOutput.http PlayerOutput.args PlayerOutput.cmd].
  destruct namedpipe as [np|]; simpl; [discriminate|].
  destruct filename as [name|]; simpl.
  - destruct (negb (name =? "")%string) eqn:E; simpl; [discriminate|].
    destruct http as [h|]; simpl; [discriminate|]. reflexivity.
  - destruct http as [h|]; simpl; [discriminate|]. reflexivity.
Qed.

Lemma X14_pipe_player_witness :
  stdin_is_pipe (self player_sink) = true /\
  _create_arguments calm (self player_sink)
  = and_then (format_filename calm "{filename}" "-") (fun a =>
    let '(c', a') :=
      if is_win32 calm then (double_backslashes "vlc", double_backslashes a)
      else ("vlc"%string, a) in
    and_then (shlex_split calm c') (fun c =>
    and_then (shlex_split calm a') (fun a'' => Ok (c ++ a'')%list))).
Proof.
  split; [reflexivity|].
  apply (X14_pipe_player_reads_dash calm "vlc" "{filename}" None true true
           false None None).
  reflexivity.
Defined.

(** X15: the [finally] clause of [_open]: whatever happens in it (the
    arguments cannot be built, the spawn raises, the player exits early,
    the input channel fails to open, or all goes well), the last calls of
    [_open] close the two quiet handles when [quiet] is set, and [_open]
    makes no call after them. *)
Theorem X15_quiet_handles_always_closed (w : World) (s : t) :
  exists before, snd (_open w s) = (before ++ finally_events s)%list.
Proof.
  unfold _open, try_finally, finally_events.
  unfold bind at 1. unfold get at 1.
  destruct (call s && truthy (filename s)).
  - pose proof (_open_call_state w s) as Hs.
    destruct (_open_call w s) as [[r s'] tr]. simpl in Hs. subst s'.
    rewrite app_nil_l.
    unfold bind, get, effect, ret. destruct (quiet s); simpl;
      exists tr; reflexivity.
  - pose proof (_open_subprocess_state w s) as Hs.
    destruct (_open_subprocess w s) as [[r s'] tr]. simpl in Hs.
    rewrite app_nil_l.
    assert (quiet s' = quiet s) as Hq by (destruct Hs; subst s'; reflexivity).
    unfold bind, get, effect, ret. rewrite Hq. destruct (quiet s); simpl;
      exists tr; reflexivity.
Qed.

(** X16: blocking call mode ([call] set and a non-empty file name), once
    the arguments are built: [_open] runs the player with one
    [subprocess.call] and then the [finally] clause; it neither sleeps nor
    polls, assigns no attribute, and its outcome is that of the call alone,
    whatever exit status the player ends with. *)
Theorem X16_call_mode_open (w : World) (s : t) (argv : list string) :
  call s && truthy (filename s) = true ->
  _create_arguments w s = Ok argv ->
  _open w s = (outcome w [Call argv], s, Call argv :: finally_events s).
Proof.
  intros Hmode Hargs.
  unfold _open, try_finally, _open_call, finally_events, outcome.
  unfold bind, get, lift, extern, effect, ret.
  rewrite Hmode, Hargs.
  destruct (raises w (Call argv)); destruct (quiet s); reflexivity.
Qed.

Lemma X16_call_mode_open_witness :
  call (self call_sink) && truthy (filename (self call_sink)) = true
  /\ _create_arguments exited (self call_sink) = Ok ["vlc"; "movie.ts"]%string
  /\ _open exited (self call_sink)
     = (outcome exited [Call ["vlc"; "movie.ts"]%string], self call_sink,
        Call ["vlc"; "movie.ts"]%string :: finally_events (self call_sink)).
Proof.
  split; [reflexivity|split; [reflexivity|]].
  apply (X16_call_mode_open exited (self call_sink) ["vlc"; "movie.ts"]%string);
    reflexivity.
Defined.

(** X17: async spawn mode, when [subprocess.Popen] raises (the command is
    not found, say): the error leaves [_open] after the [finally] clause;
    [self.player] is not assigned, and there is no sleep, no poll and no
    opening of the input channel. *)
Theorem X17_spawn_failure (w : World) (s : t) (argv : list string) (e : exn) :
  call s && truthy (filename s) = false ->
  _create_arguments w s = Ok argv ->
  raises w (Popen argv (stdin_is_pipe s)) = Some e ->
  _open w s
  = (Raise e, s, Popen argv (stdin_is_pipe s) :: finally_events s).
Proof.
  intros Hmode Hargs Hspawn.
  unfold _open, try_finally, _open_subprocess, finally_events.
  unfold bind, get, lift, extern, effect, ret.
  rewrite Hmode, Hargs. simpl. rewrite Hspawn.
  destruct (quiet s); reflexivity.
Qed.

Lemma X17_spawn_failure_witness :
  call (self player_sink) && truthy (filename (self player_sink)) = false
  /\ _create_arguments popen_fails (self player_sink) = Ok ["vlc"; "-"]%string
  /\ raises popen_fails (Popen ["vlc"; "-"]%string (stdin_is_pipe (self player_sink)))
     = Some (OSError "No such file or directory")
  /\ _open popen_fails (self player_sink)
     = (Raise (OSError "No such file or directory"), self player_sink,
        Popen ["vlc"; "-"]%string (stdin_is_pipe (self player_sink))
          :: finally_events (self player_sink)).
Proof.
  split; [reflexivity|split; [reflexivity|split; [reflexivity|]]].
  apply (X17_spawn_failure popen_fails (self player_sink) ["vlc"; "-"]%string
           (OSError "No such file or directory")); reflexivity.
Defined.

(** X18: when the arguments cannot be built (the template does not
    format, or [shlex.split] rejects the command or the arguments), in
    either mode no process is started: [_open] raises that error having
    made no call but those of the [finally] clause, and assigns nothing. *)
Theorem X18_bad_arguments_start_nothing (w : World) (s : t) (e : exn) :
  _create_arguments w s = Raise e ->
  _open w s = (Raise e, s, finally_events s).
Proof.
  intros Hargs.
  unfold _open, try_finally, _open_call, _open_subprocess, finally_events.
  unfold bind, get, lift, extern, effect, ret.
  destruct (call s && truthy (filename s)); rewrite Hargs;
    destruct (quiet s); reflexivity.
Qed.

Lemma X18_bad_arguments_witness :
  _create_arguments unbalanced (self player_sink)
  = Raise (ValueError "No closing quotation")
  /\ _open unbalanced (self player_sink)
     = (Raise (ValueError "No closing quotation"), self player_sink,
        finally_events (self player_sink)).
Proof.
  split; [reflexivity|].
  apply (X18_bad_arguments_start_nothing unbalanced (self player_sink)
           (ValueError "No closing quotation")).
  reflexivity.
Defined.

(** X19: where [_write] sends the data of a spawned player built by the
    constructor: to the named pipe if there is one, else to the HTTP sink
    if there is one, else, without a file name, to the standard input of
    the player, one call each time. With a file name only, the player
    inherited the parent's input, [player.stdin] is [None], and [_write]
    raises [AttributeError] without any call. *)
Theorem X19_write_routing (w : World) (data : bytes) (cmd args : string)
        (filename : option string) (quiet kill call : bool)
        (http : option HTTPServer) (namedpipe : option NamedPipe) :
  let s := spawned (self (__init__ cmd args filename quiet kill call http
                            namedpipe)) in
  _write w data s
  = match namedpipe, http with
    | Some _, _ => (outcome w [PipeWrite data], s, [PipeWrite data])
    | None, Some _ => (outcome w [HttpWrite data], s, [HttpWrite data])
    | None, None =>
        if truthy filename
        then (Raise (AttributeError "write"), s, [])
        else (outcome w [StdinWrite data], s, [StdinWrite data])
    end.
Proof.
  cbv zeta. unfold _write, bind, get, get_player, extern, raise, outcome,
    spawned, stdin_is_pipe, __init__, new.
  cbn [self PlayerOutput.stdin PlayerOutput.namedpipe PlayerOutput.filename
       PlayerOutput.http PlayerOutput.player stdin_pipe].
  destruct namedpipe as [np|]; simpl.
  - destruct (raises w (PipeWrite data)); reflexivity.
  - destruct http as [h|]; simpl.
    + destruct (raises w (HttpWrite data)); reflexivity.
    + rewrite orb_false_r. destruct (truthy filename); simpl; [reflexivity|].
      destruct (raises w (StdinWrite data)); reflexivity.
Qed.

(** X27: a player fed through its standard input, where no call fails and
    the player is alive at the liveness check: [open], [write(data)] and
    [close] each return. [open] spawns the player with a pipe, sleeps and
    polls once; [write] makes one write to that pipe; [close] closes the
    pipe, kills the player if [kill] is set, and waits for it; the sink
    ends closed. *)
Theorem X27_pipe_player_life_cycle (w : World) (data : bytes)
        (cmd args : string) (quiet kill call : bool) (argv : list string) :
  let o := __init__ cmd args None quiet kill call None None in
  (forall ev, raises w ev = None) ->
  returncode w = None ->
  _create_arguments w (self o) = Ok argv ->
  let o1 := mkOutput (Some true) (spawned (self o)) in
  let o2 := mkOutput (Some false) (spawned (self o)) in
  open w o
  = (Ok tt, o1,
     ([Popen argv true; Sleep; Poll] ++ finally_events (self o))%list)
  /\ write w data o1 = (Ok tt, o1, [StdinWrite data])
  /\ close w o1
     = (Ok tt, o2, (StdinClose :: kill_events (self o) ++ [Wait])%list).
Proof.
  cbv zeta. intros Hw Hrc Hargs.
  split; [|split].
  - rewrite open_outcome.
    change (@Base._open t sink w) with (_open w).
    assert (PlayerOutput.call (self (__init__ cmd args None quiet kill call
                                       None None))
            && truthy (filename (self (__init__ cmd args None quiet kill call
                                         None None))) = false) as Hmode.
    { simpl. apply andb_false_r. }
    rewrite (_open_async w _ argv Hmode Hargs (Hw _)). rewrite Hrc.
    simpl. reflexivity.
  - unfold write, bind, get_opened, on_self. simpl.
    unfold _write, bind, get, get_player, extern. simpl. rewrite Hw.
    reflexivity.
  - unfold close, bind, get_opened, on_self, set_opened. simpl.
    unfold _close, close_input, kill_step, player_wait, player_stdin_close,
      player_kill, ignored, bind, get, get_player, extern, ret, kill_events.
    simpl. rewrite !Hw. destruct kill; simpl; rewrite ?Hw; reflexivity.
Qed.

Lemma X27_pipe_player_life_cycle_witness :
  (forall ev, raises calm ev = None)
  /\ returncode calm = None
  /\ _create_arguments calm (self player_sink) = Ok ["vlc"; "-"]%string
  /\ open calm player_sink
     = (Ok tt, mkOutput (Some true) (spawned (self player_sink)),
        ([Popen ["vlc"; "-"]%string true; Sleep; Poll]
           ++ finally_events (self player_sink))%list)
  /\ write calm [x47] (mkOutput (Some true) (spawned (self player_sink)))
     = (Ok tt, mkOutput (Some true) (spawned (self player_sink)),
        [StdinWrite [x47]])
  /\ close calm (mkOutput (Some true) (spawned (self player_sink)))
     = (Ok tt, mkOutput (Some false) (spawned (self player_sink)),
        (StdinClose :: kill_events (self player_sink) ++ [Wait])%list).
Proof.
  split; [reflexivity|split; [reflexivity|split; [reflexivity|]]].
  apply (X27_pipe_player_life_cycle calm [x47] "vlc" "{filename}" true true
           false ["vlc"; "-"]%string); reflexivity.
Defined.

End PlayerMore.

(** * Further properties of [MulticastOutput] *)

Section MulticastMore.
Import Py Effects Base MulticastOutput Samples.

(** When no [sendto] fails, the loop of [_write] sends every packet, in
    order, and touches no attribute but [remainder]. *)
Lemma send_packets_all_sent (w : World) (so : socket_t) (addr : string * Z)
      (entry : bytes) (packets : list bytes) :
  (forall p, raises w (Sendto p (fst addr) (snd addr)) = None) ->
  forall (k : nat) (s : t),
    fst (fst (send_packets w (Some so) addr entry k packets s)) = Ok tt
    /\ snd (send_packets w (Some so) addr entry k packets s)
       = map (fun p => Sendto p (fst addr) (snd addr)) packets
    /\ url (snd (fst (send_packets w (Some so) addr entry k packets s))) = url s
    /\ address (snd (fst (send_packets w (Some so) addr entry k packets s)))
       = address s
    /\ interface_ip (snd (fst (send_packets w (Some so) addr entry k packets s)))
       = interface_ip s
    /\ socket (snd (fst (send_packets w (Some so) addr entry k packets s)))
       = socket s.
Proof.
  intros Hw. induction packets as [|p ps IH]; intros k s; simpl.
  - repeat split.
  - unfold bind, set_remainder, extern. rewrite Hw.
    set (s1 := {| url := url s; address := address s;
                  interface_ip := interface_ip s; socket := socket s;
                  remainder := Packetizer.remainder_at_yield entry k |}).
    specialize (IH (S k) s1).
    destruct (send_packets w (Some so) addr entry (S k) ps s1) as [[r s2] tr].
    simpl in *. destruct IH as (Hr & Ht & H1 & H2 & H3 & H4).
    subst r tr. repeat split; assumption.
Qed.

(** X20: the remainder held by the sink stays shorter than a packet
    across [_write], also when a [sendto] fails in the middle of the call
    and the generator is abandoned. *)
Theorem X20_write_keeps_remainder_short (w : World) (data : bytes) (s : t) :
  len (remainder s) < Packetizer.packetSize ->
  len (remainder (snd (fst (_write w data s)))) < Packetizer.packetSize.
Proof. apply _write_remainder_lt. Qed.

Lemma X20_write_keeps_remainder_witness :
  len (remainder (self multicast_sink)) < Packetizer.packetSize /\
  len (remainder
         (snd (fst (_write sendto_fails (Packetizer.pattern 0 400)
                      (self multicast_sink)))))
  < Packetizer.packetSize.
Proof.
  split; [reflexivity|].
  apply (X20_write_keeps_remainder_short sendto_fails
           (Packetizer.pattern 0 400) (self multicast_sink)).
  reflexivity.
Defined.

(** X21: [_write] on a sink that holds a socket, when no [sendto] fails:
    it returns, has sent exactly the packets of [iterdata], each as one
    datagram to the group address and in order, and holds the remainder
    of [iterdata]; the bytes of that remainder are not sent. *)
Theorem X21_write_sends_each_packet (w : World) (data : bytes) (s : t)
        (so : socket_t) :
  socket s = Some so ->
  (forall p, raises w (Sendto p (fst (address s)) (snd (address s))) = None) ->
  _write w data s
  = (Ok tt,
     {| url := url s; address := address s; interface_ip := interface_ip s;
        socket := socket s; remainder := snd (iterdata s data) |},
     map (fun p => Sendto p (fst (address s)) (snd (address s)))
       (fst (iterdata s data))).
Proof.
  intros Hso Hw. unfold _write. unfold bind at 1. unfold get at 1.
  destruct (iterdata s data) as [packets r']. rewrite Hso.
  pose proof (send_packets_all_sent w so (address s) (remainder s) packets
                Hw 0%nat s) as H.
  unfold bind, set_remainder.
  destruct (send_packets w (Some so) (address s) (remainder s) 0 packets s)
    as [[r s1] tr].
  simpl in *. destruct H as (Hr & Ht & H1 & H2 & H3 & H4).
  subst r tr. rewrite H1, H2, H3, H4, Hso, app_nil_r. reflexivity.
Qed.

Lemma X21_write_sends_witness :
  socket (self opened_multicast_sink) = Some mcast_socket
  /\ (forall p,
         raises calm (Sendto p (fst (address (self opened_multicast_sink)))
                        (snd (address (self opened_multicast_sink)))) = None)
  /\ _write calm (Packetizer.pattern 0 400) (self opened_multicast_sink)
     = (Ok tt,
        {| url := url (self opened_multicast_sink);
           address := address (self opened_multicast_sink);
           interface_ip := interface_ip (self opened_multicast_sink);
           socket := socket (self opened_multicast_sink);
           remainder := snd (iterdata (self opened_multicast_sink)
                               (Packetizer.pattern 0 400)) |},
        map (fun p => Sendto p (fst (address (self opened_multicast_sink)))
                        (snd (address (self opened_multicast_sink))))
          (fst (iterdata (self opened_multicast_sink)
                  (Packetizer.pattern 0 400)))).
Proof.
  split; [reflexivity|split; [intros p; reflexivity|]].
  apply (X21_write_sends_each_packet calm (Packetizer.pattern 0 400)
           (self opened_multicast_sink) mcast_socket);
    [reflexivity|intros p; reflexivity].
Defined.

(** X22: [_close] detaches the socket before any teardown call: afterwards
    the sink holds no socket, whether the teardown returned or raised, and
    a further [_close] makes no call and returns. *)
Theorem X22_close_detaches_socket (w w' : World) (s : t) :
  socket (snd (fst (_close w s))) = None
  /\ _close w' (snd (fst (_close w s))) = (Ok tt, snd (fst (_close w s)), []).
Proof.
  unfold _close, bind, get, set_socket, ignored, extern, ret.
  destruct (socket s) as [so|] eqn:Hso; simpl.
  - destruct (raises w (LeaveGroup (fst (address s)) (interface_ip s)))
      as [e|]; simpl.
    + destruct (is_Exception e); simpl.
      * destruct (raises w SocketClose); simpl; split; reflexivity.
      * split; reflexivity.
    + destruct (raises w SocketClose); simpl; split; reflexivity.
  - rewrite Hso. split; reflexivity.
Qed.

(** X23: leaving the group is best effort: when [leave_group] raises an
    [Exception], [_close] swallows it and still closes the socket; the
    outcome of [_close] is then that of [socket.close()]. *)
Theorem X23_leave_group_error_swallowed (w : World) (s : t) (so : socket_t)
        (e : exn) :
  socket s = Some so ->
  raises w (LeaveGroup (fst (address s)) (interface_ip s)) = Some e ->
  is_Exception e = true ->
  _close w s
  = (outcome w [SocketClose],
     {| url := url s; address := address s; interface_ip := interface_ip s;
        socket := None; remainder := remainder s |},
     [LeaveGroup (fst (address s)) (interface_ip s); SocketClose]).
Proof.
  intros Hso Hl He.
  unfold _close, bind, get, set_socket, ignored, extern, ret, outcome.
  rewrite Hso. simpl. rewrite Hl, He. simpl.
  destruct (raises w SocketClose); reflexivity.
Qed.

Lemma X23_leave_group_witness :
  socket (self opened_multicast_sink) = Some mcast_socket
  /\ raises leave_fails
       (LeaveGroup (fst (address (self opened_multicast_sink)))
          (interface_ip (self opened_multicast_sink)))
     = Some (OSError "Cannot assign requested address")
  /\ is_Exception (OSError "Cannot assign requested address") = true
  /\ _close leave_fails (self opened_multicast_sink)
     = (outcome leave_fails [SocketClose],
        {| url := url (self opened_multicast_sink);
           address := address (self opened_multicast_sink);
           interface_ip := interface_ip (self opened_multicast_sink);
           socket := None;
           remainder := remainder (self opened_multicast_sink) |},
        [LeaveGroup (fst (address (self opened_multicast_sink)))
           (interface_ip (self opened_multicast_sink)); SocketClose]).
Proof.
  split; [reflexivity|split; [reflexivity|split; [reflexivity|]]].
  apply (X23_leave_group_error_swallowed leave_fails
           (self opened_multicast_sink) mcast_socket
           (OSError "Cannot assign requested address")); reflexivity.
Defined.


(** X25: when the socket is created but joining the group raises, [open]
    on a new sink raises that error with the socket stored and not
    closed, and the flag [opened] still unset; a [close] that follows
    raises [AttributeError] and never closes that socket. The socket is
    bound to the interface address when the URL has a fragment, else to
    the group host. *)
Theorem X25_failed_join_leaves_socket (w w' : World) (u : ParseResult)
        (e : exn) :
  let o := MulticastOutput.__init__ u in
  let host := if String.eqb (fragment u) EmptyString then hostname u
              else fragment u in
  let port := snd (address (self o)) in
  raises w (CreateSocket host port) = None ->
  raises w (JoinGroup (hostname u) (fragment u)) = Some e ->
  let o' := snd (fst (open w o)) in
  open w o
  = (Raise e, o',
     [CreateSocket host port; JoinGroup (hostname u) (fragment u)])
  /\ socket (self o') = Some mcast_socket
  /\ opened o' = None
  /\ close w' o' = (Raise (AttributeError "opened"), o', []).
Proof.
  cbv zeta. intros Hc Hj.
  unfold open, close, bind, on_self, set_opened, get_opened.
  cbn [self opened MulticastOutput.__init__ new Base._open sink] in *.
  unfold _open, bind, get, set_socket, extern.
  cbn [interface_ip address fst snd MulticastOutput.url socket remainder] in *.
  rewrite Hc. simpl. rewrite Hj. simpl. repeat split.
Qed.

Lemma X25_failed_join_witness :
  raises join_fails (CreateSocket "239.0.0.1" 8000) = None
  /\ raises join_fails (JoinGroup "239.0.0.1" "")
     = Some (OSError "No such device")
  /\ open join_fails multicast_sink
     = (Raise (OSError "No such device"),
        snd (fst (open join_fails multicast_sink)),
        [CreateSocket "239.0.0.1" 8000; JoinGroup "239.0.0.1" ""])
  /\ socket (self (snd (fst (open join_fails multicast_sink))))
     = Some mcast_socket
  /\ opened (snd (fst (open join_fails multicast_sink))) = None
  /\ close calm (snd (fst (open join_fails multicast_sink)))
     = (Raise (AttributeError "opened"),
        snd (fst (open join_fails multicast_sink)), []).
Proof.
  split; [reflexivity|split; [reflexivity|]].
  apply (X25_failed_join_leaves_socket join_fails calm
           {| hostname := "239.0.0.1"; port := None; fragment := "" |}
           (OSError "No such device")); reflexivity.
Defined.

(** X26: when the [sendto] of the first packet of a call raises, [_write]
    raises that error after this one call; the remainder that was pending
    is still held, and nothing of [data] is kept or sent later. *)
Theorem X26_first_sendto_failure (w : World) (data : bytes) (s : t)
        (so : socket_t) (p : bytes) (ps : list bytes) (e : exn) :
  socket s = Some so ->
  fst (iterdata s data) = p :: ps ->
  raises w (Sendto p (fst (address s)) (snd (address s))) = Some e ->
  _write w data s
  = (Raise e,
     {| url := url s; address := address s; interface_ip := interface_ip s;
        socket := socket s; remainder := remainder s |},
     [Sendto p (fst (address s)) (snd (address s))]).
Proof.
  intros Hso Hp Hw. unfold _write. unfold bind at 1. unfold get at 1.
  destruct (iterdata s data) as [packets r']. simpl in Hp. subst packets.
  rewrite Hso. simpl. unfold bind, set_remainder, extern. rewrite Hw.
  simpl. rewrite Hso. reflexivity.
Qed.

Lemma X26_first_sendto_failure_witness :
  socket (self opened_multicast_sink) = Some mcast_socket
  /\ fst (iterdata (self opened_multicast_sink) (Packetizer.pattern 0 400))
     = [Packetizer.pattern 0 188; Packetizer.pattern 188 188]
  /\ raises sendto_fails
       (Sendto (Packetizer.pattern 0 188)
          (fst (address (self opened_multicast_sink)))
          (snd (address (self opened_multicast_sink))))
     = Some (OSError "Network is unreachable")
  /\ _write sendto_fails (Packetizer.pattern 0 400) (self opened_multicast_sink)
     = (Raise (OSError "Network is unreachable"),
        {| url := url (self opened_multicast_sink);
           address := address (self opened_multicast_sink);
           interface_ip := interface_ip (self opened_multicast_sink);
           socket := socket (self opened_multicast_sink);
           remainder := remainder (self opened_multicast_sink) |},
        [Sendto (Packetizer.pattern 0 188)
           (fst (address (self opened_multicast_sink)))
           (snd (address (self opened_multicast_sink)))]).
Proof.
  split; [reflexivity|split; [reflexivity|split; [reflexivity|]]].
  apply (X26_first_sendto_failure sendto_fails (Packetizer.pattern 0 400)
           (self opened_multicast_sink) mcast_socket
           (Packetizer.pattern 0 188) [Packetizer.pattern 188 188]
           (OSError "Network is unreachable")); reflexivity.
Defined.

End MulticastMore.
